(** * ConvertIcon.py: svg_to_ico and the script entry point

    A shallow embedding of [src/EnvironmentBuilder/ConvertIcon.py].

    The script is glue around three collaborators that are not part of the
    repository: the operating system (files, [os.path]), the rasteriser
    ([cairosvg.svg2png]) and the imaging library ([PIL.Image]).  The code of
    the script is embedded as it is written, in a small error-and-state
    monad; the collaborators are the fields of a record [Deps], so every
    theorem holds for whatever they compute. *)

From Stdlib Require Import ZArith.
From stdpp Require Import gmap strings list pretty.

Local Open Scope Z_scope.

(** ** Data *)

(** A Python [bytes] value. *)
Definition bytes := list Byte.byte.

(** A [PIL.Image.Image]: the attributes the script looks at ([mode],
    [width], [height]) and the pixel data it never looks at. *)
Record Image := mkImage {
  mode : string;
  width : Z;
  height : Z;
  pixels : bytes
}.

(** The exceptions that can leave [svg_to_ico] or the script.  An exception
    raised inside a dependency is not caught or translated by the script: it
    is carried by [LibError] with the dependency's own description. *)
Inductive exn :=
| FileNotFoundError (path : string)
| IsADirectoryError (path : string)
| TypeError
| IndexError
| LibError (description : string)
| SystemExit (code : Z).

Inductive result (A : Type) :=
| Return (a : A)
| Raise (e : exn).
Arguments Return {A} a.
Arguments Raise {A} e.

(** What a call into a dependency gives back. *)
Inductive outcome (A : Type) :=
| Done (a : A)
| Failed (description : string).
Arguments Done {A} a.
Arguments Failed {A} description.

(** The file system, keyed by the path strings the program spells. *)
Inductive node :=
| File (content : bytes)
| Dir.

(** The call [img.save(path, format=..., sizes=..., append_images=...)]. *)
Record SaveRequest := mkSaveRequest {
  sr_image : Image;
  sr_path : string;
  sr_format : string;
  sr_sizes : list (Z * Z);
  sr_append : list Image
}.

(** Python list objects live in a store and are passed by reference: the
    [sizes] argument (and the default list created when [def] runs) and the
    local [images] list are locations of it. *)
Inductive pyobj :=
| PyInts (items : list Z)
| PyImages (items : list Image).

Definition loc := nat.

Record World := mkWorld {
  fs : gmap string node;
  heap : list pyobj
}.

(** What a run does, in program order. *)
Inductive event :=
| EvPrint (line : string)
| EvExists (path : string)
| EvOpenRb (path : string)
| EvSvg2png (data : bytes) (output_width output_height : Z)
| EvImageOpen (png : bytes)
| EvConvert (img : Image) (to_mode : string)
| EvSave (req : SaveRequest).

(** The collaborators. *)
Record Deps := mkDeps {
  (* os.path.join(a, *p) *)
  os_path_join : string -> list string -> string;
  (* cairosvg.svg2png(bytestring=, output_width=, output_height=) *)
  svg2png : bytes -> Z -> Z -> outcome bytes;
  (* Image.open(io.BytesIO(png_data)) *)
  image_open : bytes -> outcome Image;
  (* img.convert(mode) *)
  image_convert : Image -> string -> outcome Image;
  (* img.save(...): whatever it does to the file system, and how it ends *)
  image_save : SaveRequest -> gmap string node -> gmap string node * outcome unit
}.

(** ** The monad *)

Record Run (A : Type) := mkRun {
  events : list event;
  final : World;
  res : result A
}.
Arguments mkRun {A} events final res.
Arguments events {A} r.
Arguments final {A} r.
Arguments res {A} r.

Definition M (A : Type) := World -> Run A.

Definition ret {A} (a : A) : M A := fun w => mkRun [] w (Return a).

Definition raise {A} (e : exn) : M A := fun w => mkRun [] w (Raise e).

Definition bind {A B} (m : M A) (k : A -> M B) : M B := fun w =>
  let r := m w in
  match res r with
  | Return a =>
      let r' := k a (final r) in
      mkRun (events r ++ events r') (final r') (res r')
  | Raise e => mkRun (events r) (final r) (Raise e)
  end.

Notation "x <- m ;; k" := (bind m (fun x => k))
  (at level 100, m at next level, right associativity).
Notation "m ;;; k" := (bind m (fun _ => k))
  (at level 100, right associativity).

Definition emit (e : event) : M unit := fun w => mkRun [e] w (Return tt).

Definition lift {A} (o : outcome A) : M A :=
  match o with
  | Done a => ret a
  | Failed d => raise (LibError d)
  end.

(** ** Built-ins and dependency calls *)

Definition print (line : string) : M unit := emit (EvPrint line).

Definition os_path_exists (path : string) : M bool := fun w =>
  mkRun [EvExists path] w (Return (bool_decide (is_Some (fs w !! path)))).

(** [with open(path, 'rb') as f: f.read()] *)
Definition open_rb (path : string) : M bytes := fun w =>
  mkRun [EvOpenRb path] w
    match fs w !! path with
    | Some (File content) => Return content
    | Some Dir => Raise (IsADirectoryError path)
    | None => Raise (FileNotFoundError path)
    end.

Definition sys_exit {A} (code : Z) : M A := raise (SystemExit code).

(** A list display: a new object at a location not in use. *)
Definition new_list (o : pyobj) : M loc := fun w =>
  mkRun [] (mkWorld (fs w) (heap w ++ [o])) (Return (length (heap w))).

Definition get_ints (l : loc) : M (list Z) := fun w =>
  mkRun [] w
    match heap w !! l with
    | Some (PyInts items) => Return items
    | _ => Raise TypeError
    end.

Definition get_images (l : loc) : M (list Image) := fun w =>
  mkRun [] w
    match heap w !! l with
    | Some (PyImages items) => Return items
    | _ => Raise TypeError
    end.

(** [images.append(img)]: the object at [l] is updated in place. *)
Definition list_append (l : loc) (img : Image) : M unit := fun w =>
  match heap w !! l with
  | Some (PyImages items) =>
      mkRun [] (mkWorld (fs w) (<[l := PyImages (items ++ [img])]> (heap w))) (Return tt)
  | _ => mkRun [] w (Raise TypeError)
  end.

(** [images[0]] *)
Definition first_item (items : list Image) : M Image :=
  match items with
  | img :: _ => ret img
  | [] => raise IndexError
  end.

Definition cairosvg_svg2png (D : Deps) (data : bytes) (w h : Z) : M bytes :=
  emit (EvSvg2png data w h) ;;; lift (svg2png D data w h).

Definition Image_open (D : Deps) (png : bytes) : M Image :=
  emit (EvImageOpen png) ;;; lift (image_open D png).

Definition Image_convert (D : Deps) (img : Image) (to_mode : string) : M Image :=
  emit (EvConvert img to_mode) ;;; lift (image_convert D img to_mode).

Definition Image_save (D : Deps) (req : SaveRequest) : M unit := fun w =>
  let '(fs', o) := image_save D req (fs w) in
  mkRun [EvSave req] (mkWorld fs' (heap w))
    match o with
    | Done _ => Return tt
    | Failed d => Raise (LibError d)
    end.

(** [for x in xs: body(x)], over a list no step of the body can reach (the
    body below only appends to [images], a different object). *)
Fixpoint for_each {A} (xs : list A) (body : A -> M unit) : M unit :=
  match xs with
  | [] => ret tt
  | x :: xs' => body x ;;; for_each xs' body
  end.

(** ** The script *)

(** The default of the [sizes] parameter, evaluated once, when [def] runs. *)
Definition default_sizes : list Z := [16; 32; 48; 64; 128; 256].

Definition def_svg_to_ico : M loc := new_list (PyInts default_sizes).

(** Lines 32-43, one turn of the loop. *)
Definition loop_body (D : Deps) (svg_data : bytes) (images : loc) (size : Z) : M unit :=
  print ("  Creating " +:+ pretty size +:+ "x" +:+ pretty size +:+ " icon...") ;;;
  png_data <- cairosvg_svg2png D svg_data size size ;;
  img <- Image_open D png_data ;;
  img <- (if String.eqb (mode img) "RGBA" then ret img
          else Image_convert D img "RGBA") ;;
  list_append images img.

(** Lines 20-54. *)
Definition svg_to_ico (D : Deps) (svg_path ico_path : string) (sizes : loc) : M bool :=
  print ("Converting " +:+ svg_path +:+ " to " +:+ ico_path) ;;;
  svg_data <- open_rb svg_path ;;
  images <- new_list (PyImages []) ;;
  items <- get_ints sizes ;;
  for_each items (loop_body D svg_data images) ;;;
  imgs <- get_images images ;;
  img0 <- first_item imgs ;;
  Image_save D
    (mkSaveRequest img0 ico_path "ICO"
       (map (fun img => (width img, height img)) imgs)
       (drop 1 imgs)) ;;;
  print ("Successfully created " +:+ ico_path) ;;;
  ret true.

(** The three paths of lines 59, 60 and 64. *)
Definition default_svg_path (D : Deps) (script_dir : string) : string :=
  os_path_join D script_dir ["EnvironmentBuilderApp"; "Resources"; "TestTree.svg"].

Definition default_ico_path (D : Deps) (script_dir : string) : string :=
  os_path_join D script_dir ["EnvironmentBuilderApp"; "Resources"; "TestTree.ico"].

Definition alternate_svg_path (D : Deps) (script_dir : string) : string :=
  os_path_join D script_dir [".."; "TestTree.svg"].

(** Lines 56-70; [script_dir] is [os.path.dirname(os.path.abspath(__file__))]
    and [sizes] the default list of [svg_to_ico]. *)
Definition main (D : Deps) (script_dir : string) (sizes : loc) : M unit :=
  let svg_path := default_svg_path D script_dir in
  let ico_path := default_ico_path D script_dir in
  missing <- (b <- os_path_exists svg_path ;; ret (negb b)) ;;
  let svg_path := if missing then alternate_svg_path D script_dir else svg_path in
  found <- os_path_exists svg_path ;;
  if found then
    svg_to_ico D svg_path ico_path sizes ;;; ret tt
  else
    print ("SVG file not found: " +:+ svg_path) ;;;
    sys_exit 1.

(** The whole module: [def], then the [__main__] block. *)
Definition script (D : Deps) (script_dir : string) : M unit :=
  sizes <- def_svg_to_ico ;;
  main D script_dir sizes.

(** The exit status of the process. *)
Definition exit_status {A} (r : result A) : Z :=
  match r with
  | Return _ => 0
  | Raise (SystemExit code) => code
  | Raise _ => 1
  end.

(** ** A pure reading of the loop *)

(** Lines 34-41 for one size: what ends up appended to [images]. *)
Definition render (D : Deps) (svg_data : bytes) (size : Z) : outcome Image :=
  match svg2png D svg_data size size with
  | Failed d => Failed d
  | Done png_data =>
      match image_open D png_data with
      | Failed d => Failed d
      | Done img =>
          if String.eqb (mode img) "RGBA" then Done img
          else image_convert D img "RGBA"
      end
  end.

(** The renditions appended until the loop ends or a dependency raises. *)
Fixpoint render_all (D : Deps) (svg_data : bytes) (sizes : list Z)
  : list Image * option string :=
  match sizes with
  | [] => ([], None)
  | size :: rest =>
      match render D svg_data size with
      | Failed d => ([], Some d)
      | Done img =>
          let '(imgs, stop) := render_all D svg_data rest in
          (img :: imgs, stop)
      end
  end.

(** The arguments of the [save] call of lines 46-51. *)
Definition save_request (ico_path : string) (img0 : Image) (imgs : list Image) : SaveRequest :=
  mkSaveRequest img0 ico_path "ICO"
    (map (fun img => (width img, height img)) imgs)
    (drop 1 imgs).

(** How far a call of [svg_to_ico] gets. *)
Inductive stage :=
| StopOpen (e : exn)
| StopSizes
| StopRender (description : string)
| StopEmpty
| ReachSave (req : SaveRequest).

Definition plan (D : Deps) (svg_path ico_path : string) (sizes : loc) (w : World) : stage :=
  match fs w !! svg_path with
  | None => StopOpen (FileNotFoundError svg_path)
  | Some Dir => StopOpen (IsADirectoryError svg_path)
  | Some (File svg_data) =>
      match (heap w ++ [PyImages []]) !! sizes with
      | Some (PyInts items) =>
          match render_all D svg_data items with
          | (_, Some d) => StopRender d
          | (imgs, None) =>
              match imgs with
              | [] => StopEmpty
              | img0 :: _ => ReachSave (save_request ico_path img0 imgs)
              end
          end
      | _ => StopSizes
      end
  end.

(** The images the container is asked to embed: the primary image, then the
    appended ones.  Its size directory is [sr_sizes]. *)
Definition embedded (req : SaveRequest) : list Image := sr_image req :: sr_append req.

(** ** Reading a trace *)

Definition is_file_io (e : event) : bool :=
  match e with
  | EvExists _ | EvOpenRb _ | EvSave _ => true
  | _ => false
  end.

Definition is_probe (e : event) : bool :=
  match e with EvExists _ => true | _ => false end.

Definition is_open (e : event) : bool :=
  match e with EvOpenRb _ => true | _ => false end.

Definition is_save (e : event) : bool :=
  match e with EvSave _ => true | _ => false end.

Definition is_raster (e : event) : bool :=
  match e with EvSvg2png _ _ _ => true | _ => false end.

(** ** Stand-ins for the dependencies, to run the script on examples *)

Fixpoint ends_with_sep (s : string) : bool :=
  match s with
  | EmptyString => false
  | String c EmptyString => Ascii.eqb c (Ascii.ascii_of_nat 47)
  | String _ s' => ends_with_sep s'
  end.

(** [posixpath.join] *)
Definition posix_join (a : string) (p : list string) : string :=
  fold_left (fun path b =>
    if String.prefix "/" b then b
    else if (String.eqb path "" || ends_with_sep path)%bool then path +:+ b
    else path +:+ "/" +:+ b) p a.

(** A rasteriser that accepts every size, a decoder that reads the size
    back, a conversion that relabels the mode, and a [save] that stores the
    pixel data of the embedded images. *)
Definition toy_svg2png (data : bytes) (w h : Z) : outcome bytes :=
  Done (replicate (Z.to_nat w) Byte.x2a).

Definition toy_open (png : bytes) : outcome Image :=
  Done (mkImage "RGB" (Z.of_nat (length png)) (Z.of_nat (length png)) png).

Definition toy_convert (img : Image) (to_mode : string) : outcome Image :=
  Done (mkImage to_mode (width img) (height img) (pixels img)).

Definition toy_encode (req : SaveRequest) : bytes :=
  flat_map pixels (embedded req).

Definition toy_save (req : SaveRequest) (files : gmap string node)
  : gmap string node * outcome unit :=
  (<[sr_path req := File (toy_encode req)]> files, Done tt).

Definition toy : Deps :=
  mkDeps posix_join toy_svg2png toy_open toy_convert toy_save.

(** A [save] that runs out of disk space after the first byte. *)
Definition full_disk_save (req : SaveRequest) (files : gmap string node)
  : gmap string node * outcome unit :=
  (<[sr_path req := File (take 1 (toy_encode req))]> files,
   Failed "OSError: No space left on device").

Definition full_disk : Deps :=
  mkDeps posix_join toy_svg2png toy_open toy_convert full_disk_save.

Definition svg_doc : bytes := String.list_byte_of_string "<svg/>".

(** A world with the vector document at [in.svg] and the default size list
    at location 0. *)
Definition world0 : World :=
  mkWorld {[ "in.svg"%string := File svg_doc ]} [PyInts default_sizes].

(** The result, the file system and the file events a stage stands for. *)
Definition stage_res (D : Deps) (files : gmap string node) (st : stage) : result bool :=
  match st with
  | StopOpen e => Raise e
  | StopSizes => Raise TypeError
  | StopRender d => Raise (LibError d)
  | StopEmpty => Raise IndexError
  | ReachSave req =>
      match (image_save D req files).2 with
      | Done _ => Return true
      | Failed d => Raise (LibError d)
      end
  end.

Definition stage_fs (D : Deps) (files : gmap string node) (st : stage) : gmap string node :=
  match st with
  | ReachSave req => (image_save D req files).1
  | _ => files
  end.

Definition stage_io (svg_path : string) (st : stage) : list event :=
  EvOpenRb svg_path ::
  match st with
  | ReachSave req => [EvSave req]
  | _ => []
  end.

Definition world_16_32 : World :=
  mkWorld {[ "in.svg"%string := File svg_doc ]} [PyInts [16; 32]].

Definition world_empty_sizes : World :=
  mkWorld {[ "in.svg"%string := File svg_doc ]} [PyInts []].

Definition world_2048 : World :=
  mkWorld {[ "in.svg"%string := File svg_doc ]} [PyInts [2048]].

(** The script installed in [/app]: no vector document at all, and one at
    the alternate path only. *)
Definition world_bare : World := mkWorld ∅ [PyInts default_sizes].

Definition world_alternate : World :=
  mkWorld {[ "/app/../TestTree.svg"%string := File svg_doc ]} [PyInts default_sizes].

(** What the stand-in rasteriser, decoder and conversion make of a size, and
    the [save] call the script makes for [world_16_32]. *)
Definition toy_image (size : Z) : Image :=
  mkImage "RGBA" size size (replicate (Z.to_nat size) Byte.x2a).

Definition toy_request : SaveRequest :=
  save_request "out.ico" (toy_image 16) [toy_image 16; toy_image 32].

(** ** What the claims assume of the dependencies *)

(** Every requested rendition of the document succeeds. *)
Definition renders (D : Deps) (svg_data : bytes) (sizes : list Z) : Prop :=
  Forall (fun size => exists img, render D svg_data size = Done img) sizes.

(** The rasteriser honours [output_width] and [output_height] for the
    requested sizes. *)
Definition raster_exact (D : Deps) (svg_data : bytes) (sizes : list Z) : Prop :=
  forall size png img,
    In size sizes ->
    svg2png D svg_data size size = Done png ->
    image_open D png = Done img ->
    width img = size /\ height img = size.

Definition convert_keeps_size (D : Deps) : Prop :=
  forall img to_mode img',
    image_convert D img to_mode = Done img' ->
    width img' = width img /\ height img' = height img.

Definition convert_sets_mode (D : Deps) : Prop :=
  forall img to_mode img',
    image_convert D img to_mode = Done img' -> mode img' = to_mode.

(** What a successful [save] leaves at its path is a function of the call. *)
Definition save_overwrites (D : Deps) : Prop :=
  forall req files1 files2,
    (image_save D req files1).2 = Done tt ->
    (image_save D req files2).2 = Done tt ->
    (image_save D req files1).1 !! sr_path req = (image_save D req files2).1 !! sr_path req.

(** [save] leaves every other path alone. *)
Definition save_frame (D : Deps) : Prop :=
  forall req files path,
    path <> sr_path req ->
    (image_save D req files).1 !! path = files !! path.

(** What the loop appends for one size (lines 34-43): the decoded image when
    its mode is RGBA, and otherwise what [convert('RGBA')] makes of it. *)
Definition rendition (D : Deps) (svg_data : bytes) (size : Z) (img : Image) : Prop :=
  exists png decoded,
    svg2png D svg_data size size = Done png /\
    image_open D png = Done decoded /\
    ((mode decoded = "RGBA" /\ img = decoded) \/
     (mode decoded <> "RGBA" /\ image_convert D decoded "RGBA" = Done img)).

(** The encoder puts no other channel layout into a container than it was
    given: when every image of the call is RGBA, so is every image a reader
    finds in the file.  [modes_in] reads the layouts of the embedded images
    off the bytes of a container. *)
Definition encoder_keeps_rgba (D : Deps) (modes_in : bytes -> list string) : Prop :=
  forall req files content,
    (image_save D req files).2 = Done tt ->
    (image_save D req files).1 !! sr_path req = Some (File content) ->
    Forall (fun img => mode img = "RGBA") (embedded req) ->
    Forall (fun m => m = "RGBA") (modes_in content).


(** A stand-in encoder that stores one byte per embedded image, telling
    whether it is RGBA, and the reader that goes with it. *)
Definition tag_of (img : Image) : Byte.byte :=
  if String.eqb (mode img) "RGBA" then Byte.x01 else Byte.x00.

Definition tag_save (req : SaveRequest) (files : gmap string node)
  : gmap string node * outcome unit :=
  (<[sr_path req := File (map tag_of (embedded req))]> files, Done tt).

Definition tag_modes (content : bytes) : list string :=
  map (fun b => if Byte.eqb b Byte.x01 then "RGBA" else "RGB") content.

Definition tagging : Deps :=
  mkDeps posix_join toy_svg2png toy_open toy_convert tag_save.

(** [save] leaves alone every path that does not name the file it writes.
    [same_file] says when two path strings name one file (the same string,
    but also [in.svg] and [./in.svg], a link and its target, ...). *)
Definition save_respects (D : Deps) (same_file : string -> string -> Prop) : Prop :=
  forall req files path,
    ~ same_file path (sr_path req) ->
    (image_save D req files).1 !! path = files !! path.

(** A size the specification wants rejected, for an upper bound [bound]. *)
Definition invalid_size (bound size : Z) : Prop := size <= 0 \/ bound < size.

(** ** The lines and calls of a run *)

(** The three progress lines of lines 23, 32 and 53. *)
Definition converting_line (svg_path ico_path : string) : string :=
  "Converting " +:+ svg_path +:+ " to " +:+ ico_path.

Definition creating_line (size : Z) : string :=
  "  Creating " +:+ pretty size +:+ "x" +:+ pretty size +:+ " icon...".

Definition success_line (ico_path : string) : string :=
  "Successfully created " +:+ ico_path.

(** Line 69. *)
Definition not_found_line (svg_path : string) : string :=
  "SVG file not found: " +:+ svg_path.

(** Standard output: the printed lines of a trace, in order. *)
Definition printed (evs : list event) : list string :=
  flat_map (fun e => match e with EvPrint line => [line] | _ => [] end) evs.

(** The events of one turn of the loop, and of the loop until it ends or a
    dependency raises. *)
Definition body_events (D : Deps) (svg_data : bytes) (size : Z) : list event :=
  EvPrint (creating_line size) :: EvSvg2png svg_data size size ::
  match svg2png D svg_data size size with
  | Failed _ => []
  | Done png_data =>
      EvImageOpen png_data ::
      match image_open D png_data with
      | Failed _ => []
      | Done img =>
          if String.eqb (mode img) "RGBA" then [] else [EvConvert img "RGBA"]
      end
  end.

Fixpoint loop_events (D : Deps) (svg_data : bytes) (sizes : list Z) : list event :=
  match sizes with
  | [] => []
  | size :: rest =>
      body_events D svg_data size ++
      match render D svg_data size with
      | Done _ => loop_events D svg_data rest
      | Failed _ => []
      end
  end.

(** The events of a call of [svg_to_ico]. *)
Definition trace_of (D : Deps) (svg_path ico_path : string) (sizes : loc) (w : World)
  : list event :=
  EvPrint (converting_line svg_path ico_path) :: EvOpenRb svg_path ::
  match fs w !! svg_path with
  | Some (File svg_data) =>
      match (heap w ++ [PyImages []]) !! sizes with
      | Some (PyInts items) =>
          loop_events D svg_data items ++
          match plan D svg_path ico_path sizes w with
          | ReachSave req =>
              EvSave req ::
              match (image_save D req (fs w)).2 with
              | Done _ => [EvPrint (success_line ico_path)]
              | Failed _ => []
              end
          | _ => []
          end
      | _ => []
      end
  | _ => []
  end.

(** ** The imports (lines 9-18) *)

(** What is installed for the interpreter: a module is usable, or installed
    but raising something other than [ImportError] when imported (a missing
    shared library, say); a module that is not there raises [ImportError]. *)
Inductive package :=
| Usable
| Unusable (error : string).

Inductive boot_event :=
| BootImport (module : string)
| BootPrint (line : string)
| BootSystem (command : string).

Inductive boot_result :=
| Booted
| ImportError (module : string)
| OtherError (module : string) (error : string).

(** [from PIL import Image], [import cairosvg], [import io], in this order. *)
Definition imported_modules : list string := ["PIL.Image"; "cairosvg"; "io"].

(** A run of import statements stops at the first that raises. *)
Fixpoint import_each (packages : gmap string package) (modules : list string)
  : list boot_event * boot_result :=
  match modules with
  | [] => ([], Booted)
  | m :: rest =>
      match packages !! m with
      | Some Usable =>
          let '(evs, r) := import_each packages rest in
          (BootImport m :: evs, r)
      | Some (Unusable error) => ([BootImport m], OtherError m error)
      | None => ([BootImport m], ImportError m)
      end
  end.

Definition pip_command : string := "pip install cairosvg pillow".

(** The modules a run of import statements has loaded when it stops: they
    stay in [sys.modules], and a later [import] of one of them is answered
    from there without looking at what is installed. *)
Fixpoint loaded_by (packages : gmap string package) (modules : list string)
  : list string :=
  match modules with
  | [] => []
  | m :: rest =>
      match packages !! m with
      | Some Usable => m :: loaded_by packages rest
      | _ => []
      end
  end.

(** The import statements again, with [loaded] already in [sys.modules]. *)
Fixpoint import_again (loaded : list string) (packages : gmap string package)
  (modules : list string) : list boot_event * boot_result :=
  match modules with
  | [] => ([], Booted)
  | m :: rest =>
      if in_dec String.string_dec m loaded then
        let '(evs, r) := import_again loaded packages rest in
        (BootImport m :: evs, r)
      else
        match packages !! m with
        | Some Usable =>
            let '(evs, r) := import_again loaded packages rest in
            (BootImport m :: evs, r)
        | Some (Unusable error) => ([BootImport m], OtherError m error)
        | None => ([BootImport m], ImportError m)
        end
  end.

(** The [try] / [except ImportError] block; [os_system] is what running a
    shell command does to the installed packages (its exit status is
    ignored by the script). *)
Definition prelude
  (os_system : string -> gmap string package -> gmap string package)
  (packages : gmap string package)
  : list boot_event * gmap string package * boot_result :=
  match import_each packages imported_modules with
  | (evs, ImportError _) =>
      let packages' := os_system pip_command packages in
      let '(evs', r) :=
        import_again (loaded_by packages imported_modules) packages' imported_modules in
      (evs ++ [BootPrint "Installing required packages..."; BootSystem pip_command] ++ evs',
       packages', r)
  | (evs, r) => (evs, packages, r)
  end.

Definition is_boot_system (e : boot_event) : bool :=
  match e with BootSystem _ => true | _ => false end.

Definition is_boot_print (e : boot_event) : bool :=
  match e with BootPrint _ => true | _ => false end.

(** Stand-ins: a [pip] that installs the two packages, and one that fails
    and leaves everything as it was. *)
Definition pip_works (command : string) (packages : gmap string package)
  : gmap string package :=
  <["PIL.Image" := Usable]> (<["cairosvg" := Usable]> packages).

Definition pip_fails (command : string) (packages : gmap string package)
  : gmap string package := packages.

Definition site_ready : gmap string package :=
  {[ "PIL.Image" := Usable; "cairosvg" := Usable; "io" := Usable ]}.

Definition site_fresh : gmap string package := {[ "io" := Usable ]}.

(** Pillow is there, cairosvg is not; and a command that installs cairosvg
    and removes Pillow. *)
Definition site_no_cairosvg : gmap string package :=
  {[ "PIL.Image" := Usable; "io" := Usable ]}.

Definition pip_swaps (command : string) (packages : gmap string package)
  : gmap string package :=
  <["cairosvg" := Usable]> (delete "PIL.Image" packages).

Definition site_no_cairo : gmap string package :=
  {[ "PIL.Image" := Usable;
     "cairosvg" := Unusable "OSError: no library called cairo was found";
     "io" := Usable ]}.

(** The script installed in [/app], with the vector document at its default
    place. *)
Definition world_default : World :=
  mkWorld {[ "/app/EnvironmentBuilderApp/Resources/TestTree.svg"%string := File svg_doc ]}
    [PyInts default_sizes].

(** A rasteriser that rejects sizes above 256. *)
Definition picky_svg2png (data : bytes) (w h : Z) : outcome bytes :=
  if (256 <? w) || (256 <? h) then Failed "ValueError: size too large"
  else toy_svg2png data w h.

Definition picky : Deps :=
  mkDeps posix_join picky_svg2png toy_open toy_convert toy_save.

Definition world_16_512_32 : World :=
  mkWorld {[ "in.svg"%string := File svg_doc ]} [PyInts [16; 512; 32]].

(** * Properties *)

(** ** Running the monad *)

Lemma bind_Return {A B} (m : M A) (k : A -> M B) w evs w' a :
  m w = mkRun evs w' (Return a) ->
  bind m k w = mkRun (evs ++ events (k a w')) (final (k a w')) (res (k a w')).
Proof. intros E. unfold bind. rewrite E. reflexivity. Qed.

Lemma bind_Raise {A B} (m : M A) (k : A -> M B) w evs w' e :
  m w = mkRun evs w' (Raise e) ->
  bind m k w = mkRun evs w' (Raise e).
Proof. intros E. unfold bind. rewrite E. reflexivity. Qed.

(** ** The loop *)

Section Loop.
Variable D : Deps.
Variable svg_data : bytes.
Variable images : loc.

(** One turn appends the rendition of [size] to [images], or stops with the
    dependency's exception and the store as it was; it touches no file. *)
Lemma loop_body_run size w acc :
  heap w !! images = Some (PyImages acc) ->
  exists evs,
    List.filter is_file_io evs = [] /\
    loop_body D svg_data images size w =
      match render D svg_data size with
      | Done img =>
          mkRun evs (mkWorld (fs w) (<[images := PyImages (acc ++ [img])]> (heap w)))
            (Return tt)
      | Failed d => mkRun evs w (Raise (LibError d))
      end.
Proof.
  intros Hacc.
  unfold loop_body, render, cairosvg_svg2png, Image_open, Image_convert,
    print, bind, emit, lift, list_append, ret, raise; cbn.
  destruct (svg2png D svg_data size size) as [png|d]; cbn;
    [destruct (image_open D png) as [img|d]; cbn;
       [destruct (String.eqb (mode img) "RGBA"); cbn;
          [|destruct (image_convert D img "RGBA") as [img'|d]; cbn]|]|];
    rewrite ?Hacc; cbn; eexists; (split; [|reflexivity]); reflexivity.
Qed.

Lemma for_each_run sizes : forall w acc,
  heap w !! images = Some (PyImages acc) ->
  exists evs,
    List.filter is_file_io evs = [] /\
    for_each sizes (loop_body D svg_data images) w =
      mkRun evs
        (mkWorld (fs w)
           (<[images := PyImages (acc ++ (render_all D svg_data sizes).1)]> (heap w)))
        match (render_all D svg_data sizes).2 with
        | None => Return tt
        | Some d => Raise (LibError d)
        end.
Proof.
  induction sizes as [|size rest IH]; intros w acc Hacc.
  - exists []. split; [reflexivity|]. cbn. unfold ret.
    rewrite app_nil_r, list_insert_id by exact Hacc. destruct w; reflexivity.
  - destruct (loop_body_run size w acc Hacc) as (evs1 & Hio1 & Hbody).
    cbn [for_each render_all].
    destruct (render D svg_data size) as [img|d].
    + assert (Hlt : (images < length (heap w))%nat)
        by (eapply lookup_lt_Some; exact Hacc).
      set (w1 := mkWorld (fs w) (<[images := PyImages (acc ++ [img])]> (heap w))) in *.
      assert (Hacc1 : heap w1 !! images = Some (PyImages (acc ++ [img])))
        by (apply list_lookup_insert_eq; exact Hlt).
      destruct (IH w1 _ Hacc1) as (evs2 & Hio2 & Hrest).
      exists (evs1 ++ evs2). split.
      * rewrite List.filter_app, Hio1, Hio2. reflexivity.
      * rewrite (bind_Return _ _ _ _ _ _ Hbody), Hrest. cbn.
        destruct (render_all D svg_data rest) as [imgs stop]; cbn.
        rewrite list_insert_insert_eq, <- app_assoc. reflexivity.
    + exists evs1. split; [exact Hio1|].
      rewrite (bind_Raise _ _ _ _ _ _ Hbody). cbn.
      rewrite app_nil_r, list_insert_id by exact Hacc. destruct w; reflexivity.
Qed.

End Loop.

(** ** svg_to_ico, stage by stage *)

Section Stages.
Variable D : Deps.
Variables svg_path ico_path : string.
Variable sizes : loc.

Lemma svg_to_ico_stage w :
  let r := svg_to_ico D svg_path ico_path sizes w in
  let st := plan D svg_path ico_path sizes w in
  List.filter is_file_io (events r) = stage_io svg_path st /\
  fs (final r) = stage_fs D (fs w) st /\
  res r = stage_res D (fs w) st /\
  (forall l o, heap w !! l = Some o -> heap (final r) !! l = Some o).
Proof.
  unfold svg_to_ico, plan.
  erewrite bind_Return by reflexivity.
  destruct (fs w !! svg_path) as [[svg_data|]|] eqn:Hfile.
  2,3: erewrite bind_Raise by (unfold open_rb; rewrite Hfile; reflexivity);
       cbn; auto.
  erewrite bind_Return by (unfold open_rb; rewrite Hfile; reflexivity).
  erewrite bind_Return by reflexivity.
  set (w1 := mkWorld (fs w) (heap w ++ [PyImages []])).
  assert (Hkeep : forall l o, heap w !! l = Some o -> heap w1 !! l = Some o)
    by (intros l o Hl; cbn; apply lookup_app_l_Some; exact Hl).
  assert (Himages : heap w1 !! length (heap w) = Some (PyImages []))
    by (cbn; rewrite lookup_app_r, Nat.sub_diag by lia; reflexivity).
  change (heap w ++ [PyImages []]) with (heap w1).
  destruct (heap w1 !! sizes) as [[items|items]|] eqn:Hsizes.
  2,3: erewrite bind_Raise by (unfold get_ints; rewrite Hsizes; reflexivity);
       cbn; auto.
  erewrite bind_Return by (unfold get_ints; rewrite Hsizes; reflexivity).
  destruct (for_each_run D svg_data (length (heap w)) items w1 [] Himages)
    as (evs & Hio & Hloop).
  assert (Hlt : (length (heap w) < length (heap w1))%nat)
    by (cbn; rewrite length_app; cbn; lia).
  assert (Hfar : forall l o imgs, heap w !! l = Some o ->
            <[length (heap w) := PyImages imgs]> (heap w1) !! l = Some o).
  { intros l o imgs Hl. rewrite list_lookup_insert_ne.
    - apply Hkeep, Hl.
    - apply lookup_lt_Some in Hl. lia. }
  destruct (render_all D svg_data items) as [imgs [d|]] eqn:Hall; cbn in Hloop.
  - erewrite bind_Raise by exact Hloop. cbn. rewrite Hio.
    repeat split. intros l o Hl. apply Hfar, Hl.
  - erewrite bind_Return by exact Hloop.
    erewrite bind_Return
      by (unfold get_images; cbn; rewrite list_lookup_insert_eq by exact Hlt;
          reflexivity).
    destruct imgs as [|img0 rest].
    + erewrite bind_Raise by reflexivity. cbn.
      rewrite List.filter_app, Hio. cbn.
      repeat split. intros l o Hl. apply Hfar, Hl.
    + erewrite bind_Return by reflexivity.
      fold (save_request ico_path img0 (img0 :: rest)).
      unfold bind, Image_save, stage_res, stage_fs, stage_io. cbn.
      destruct (image_save D (save_request ico_path img0 (img0 :: rest)) (fs w))
        as [files' [[]|d]]; cbn;
        rewrite List.filter_app, Hio; cbn;
        (repeat split; intros l o Hl; apply Hfar, Hl).
Qed.

End Stages.

Arguments svg_to_ico : simpl never.

(** ** The renditions *)

Section Renditions.
Variable D : Deps.
Variable svg_data : bytes.

Lemma render_all_None sizes : forall imgs,
  render_all D svg_data sizes = (imgs, None) ->
  Forall2 (fun size img => render D svg_data size = Done img) sizes imgs.
Proof.
  induction sizes as [|size rest IH]; intros imgs Hall; cbn in Hall.
  - inversion Hall. constructor.
  - destruct (render D svg_data size) as [img|d] eqn:Hr; [|discriminate].
    destruct (render_all D svg_data rest) as [imgs' stop].
    inversion Hall; subst. constructor; [exact Hr|]. apply IH. reflexivity.
Qed.

Lemma render_all_ok sizes :
  renders D svg_data sizes ->
  exists imgs, render_all D svg_data sizes = (imgs, None).
Proof.
  induction 1 as [|size rest [img Hr] _ [imgs IH]]; cbn.
  - eexists; reflexivity.
  - rewrite Hr, IH. eexists; reflexivity.
Qed.

Lemma render_mode size img :
  convert_sets_mode D ->
  render D svg_data size = Done img -> mode img = "RGBA".
Proof.
  intros Hconv. unfold render.
  destruct (svg2png D svg_data size size) as [png|]; [|discriminate].
  destruct (image_open D png) as [img1|]; [|discriminate].
  destruct (String.eqb (mode img1) "RGBA") eqn:Hmode.
  - intros [= <-]. apply String.eqb_eq, Hmode.
  - apply Hconv.
Qed.

Lemma render_size sizes size img :
  raster_exact D svg_data sizes ->
  convert_keeps_size D ->
  In size sizes ->
  render D svg_data size = Done img ->
  width img = size /\ height img = size.
Proof.
  intros Hexact Hkeep Hin. unfold render.
  destruct (svg2png D svg_data size size) as [png|] eqn:Hpng; [|discriminate].
  destruct (image_open D png) as [img1|] eqn:Himg; [|discriminate].
  destruct (Hexact size png img1 Hin Hpng Himg) as [Hw Hh].
  destruct (String.eqb (mode img1) "RGBA").
  - intros [= <-]. auto.
  - intros Hc. destruct (Hkeep _ _ _ Hc) as [-> ->]. auto.
Qed.

End Renditions.

(** ** Stages *)

Lemma plan_ReachSave D svg_path ico_path sizes w req :
  plan D svg_path ico_path sizes w = ReachSave req ->
  exists svg_data items img0 rest,
    fs w !! svg_path = Some (File svg_data) /\
    (heap w ++ [PyImages []]) !! sizes = Some (PyInts items) /\
    render_all D svg_data items = (img0 :: rest, None) /\
    req = save_request ico_path img0 (img0 :: rest).
Proof.
  unfold plan.
  destruct (fs w !! svg_path) as [[svg_data|]|]; try discriminate.
  destruct ((heap w ++ [PyImages []]) !! sizes) as [[items|]|]; try discriminate.
  destruct (render_all D svg_data items) as [[|img0 rest] [d|]] eqn:Hall;
    try discriminate.
  intros [= <-]. exists svg_data, items, img0, rest. repeat split. exact Hall.
Qed.

Lemma plan_ready D svg_path ico_path sizes w svg_data items :
  fs w !! svg_path = Some (File svg_data) ->
  heap w !! sizes = Some (PyInts items) ->
  plan D svg_path ico_path sizes w =
    match render_all D svg_data items with
    | (_, Some d) => StopRender d
    | (imgs, None) =>
        match imgs with
        | [] => StopEmpty
        | img0 :: _ => ReachSave (save_request ico_path img0 imgs)
        end
    end.
Proof.
  intros Hfile Hsizes. unfold plan.
  rewrite Hfile, (lookup_app_l_Some _ _ _ _ Hsizes). reflexivity.
Qed.

Lemma plan_no_exit D svg_path ico_path sizes w code :
  stage_res D (fs w) (plan D svg_path ico_path sizes w) <> Raise (SystemExit code).
Proof.
  unfold plan.
  destruct (fs w !! svg_path) as [[svg_data|]|]; try discriminate.
  destruct ((heap w ++ [PyImages []]) !! sizes) as [[items|]|]; try discriminate.
  destruct (render_all D svg_data items) as [[|img0 rest] [d|]]; try discriminate.
  cbn. destruct (image_save D _ (fs w)).2; discriminate.
Qed.

(** ** Traces *)

Lemma filter_narrow (p q : event -> bool) (evs : list event) :
  (forall e, p e = true -> q e = true) ->
  List.filter p (List.filter q evs) = List.filter p evs.
Proof.
  intros Hpq. induction evs as [|e evs IH]; cbn; [reflexivity|].
  destruct (q e) eqn:Hq; cbn.
  - rewrite IH. reflexivity.
  - destruct (p e) eqn:Hp; [|exact IH].
    apply Hpq in Hp. congruence.
Qed.

Lemma save_is_file_io e : is_save e = true -> is_file_io e = true.
Proof. destruct e; cbn; congruence. Qed.

Lemma open_is_file_io e : is_open e = true -> is_file_io e = true.
Proof. destruct e; cbn; congruence. Qed.

Lemma probe_is_file_io e : is_probe e = true -> is_file_io e = true.
Proof. destruct e; cbn; congruence. Qed.

Lemma Forall2_In_impl {A B} (P Q : A -> B -> Prop) (xs : list A) (ys : list B) :
  Forall2 P xs ys ->
  (forall x y, In x xs -> P x y -> Q x y) ->
  Forall2 Q xs ys.
Proof.
  induction 1 as [|x y xs ys Hxy _ IH]; intros Himp; constructor.
  - apply Himp; [left; reflexivity|exact Hxy].
  - apply IH. intros x' y' Hin. apply Himp. right. exact Hin.
Qed.

Lemma declared_sizes (items : list Z) (imgs : list Image) :
  Forall2 (fun size img => width img = size /\ height img = size) items imgs ->
  map (fun img => (width img, height img)) imgs = map (fun size => (size, size)) items.
Proof.
  induction 1 as [|size img items imgs [Hw Hh] _ IH]; cbn; [reflexivity|].
  rewrite IH, Hw, Hh. reflexivity.
Qed.

Lemma saves_of_stage D svg_path ico_path sizes w :
  List.filter is_save (events (svg_to_ico D svg_path ico_path sizes w)) =
  List.filter is_save (stage_io svg_path (plan D svg_path ico_path sizes w)).
Proof.
  destruct (svg_to_ico_stage D svg_path ico_path sizes w) as (Hio & _).
  rewrite <- Hio. symmetry. apply filter_narrow, save_is_file_io.
Qed.

Lemma save_event_stage D svg_path ico_path sizes w req :
  In (EvSave req) (events (svg_to_ico D svg_path ico_path sizes w)) ->
  plan D svg_path ico_path sizes w = ReachSave req.
Proof.
  intros Hin.
  assert (Hio : In (EvSave req)
                  (List.filter is_file_io (events (svg_to_ico D svg_path ico_path sizes w))))
    by (apply List.filter_In; split; [exact Hin|reflexivity]).
  destruct (svg_to_ico_stage D svg_path ico_path sizes w) as (Hstage & _).
  rewrite Hstage in Hio.
  destruct (plan D svg_path ico_path sizes w); cbn in Hio;
    try (destruct Hio as [Hio|[]]; discriminate).
  destruct Hio as [Hio|[Hio|[]]]; congruence.
Qed.

Lemma stage_res_True D files st :
  stage_res D files st = Return true ->
  exists req, st = ReachSave req /\ (image_save D req files).2 = Done tt.
Proof.
  destruct st as [e| |d| |req]; cbn; try discriminate.
  destruct (image_save D req files).2 as [[]|d] eqn:Hsave; [|discriminate].
  intros _. exists req. split; [reflexivity|exact Hsave].
Qed.

Lemma Forall2_Forall_right {A B} (P : A -> B -> Prop) (Q : B -> Prop)
  (xs : list A) (ys : list B) :
  Forall2 P xs ys -> (forall x y, P x y -> Q y) -> Forall Q ys.
Proof.
  induction 1 as [|x y xs ys Hxy _ IH]; intros Himp; constructor; eauto.
Qed.

Lemma Forall2_Forall_left {A B} (P : A -> B -> Prop) (Q : A -> Prop)
  (xs : list A) (ys : list B) :
  Forall2 P xs ys -> (forall x y, P x y -> Q x) -> Forall Q xs.
Proof.
  induction 1 as [|x y xs ys Hxy _ IH]; intros Himp; constructor; eauto.
Qed.

(** ** The stand-ins meet the assumptions *)

Lemma toy_convert_keeps_size : convert_keeps_size toy.
Proof. intros img m img' [= <-]. split; reflexivity. Qed.

Lemma toy_convert_sets_mode : convert_sets_mode toy.
Proof. intros img m img' [= <-]. reflexivity. Qed.

Lemma toy_save_overwrites : save_overwrites toy.
Proof.
  intros req files1 files2 _ _. cbn.
  rewrite !lookup_insert_eq. reflexivity.
Qed.

Lemma toy_save_frame : save_frame toy.
Proof.
  intros req files path Hne. cbn.
  apply lookup_insert_ne. congruence.
Qed.

Lemma toy_renders_16_32 : renders toy svg_doc [16; 32].
Proof. repeat constructor; eexists; reflexivity. Qed.

Lemma toy_raster_exact_16_32 : raster_exact toy svg_doc [16; 32].
Proof.
  intros size png img [<-|[<-|[]]] [= <-] [= <-]; split; reflexivity.
Qed.

(** ** The claims *)

(** X16.  The [save] call for a list of sizes.  For a readable vector document and
    a non-empty size list whose renditions all succeed at the requested
    dimensions, [svg_to_ico] makes exactly one [save] call, to the output
    path; the images it hands over are as many as the sizes, the i-th is the
    rendition of the i-th size and declares that size as width and height,
    the size directory lists the requested sizes in order, and the primary
    image is the rendition of the first size.  This is about the arguments
    of the call; what the encoder makes of them is not the script's code. *)
Theorem svg_to_ico_embeds_requested_sizes
  D svg_path ico_path sizes w svg_data items :
  fs w !! svg_path = Some (File svg_data) ->
  heap w !! sizes = Some (PyInts items) ->
  items <> [] ->
  renders D svg_data items ->
  raster_exact D svg_data items ->
  convert_keeps_size D ->
  exists req,
    List.filter is_save (events (svg_to_ico D svg_path ico_path sizes w)) = [EvSave req] /\
    sr_path req = ico_path /\
    fs (final (svg_to_ico D svg_path ico_path sizes w)) = (image_save D req (fs w)).1 /\
    ((image_save D req (fs w)).2 = Done tt ->
       res (svg_to_ico D svg_path ico_path sizes w) = Return true) /\
    length (embedded req) = length items /\
    sr_sizes req = map (fun size => (size, size)) items /\
    Forall2 (fun size img => width img = size /\ height img = size) items (embedded req) /\
    Forall2 (fun size img => render D svg_data size = Done img) items (embedded req) /\
    (exists size0, head items = Some size0 /\ render D svg_data size0 = Done (sr_image req)).
Proof.
  intros Hfile Hsizes Hne Hok Hexact Hkeep.
  destruct (render_all_ok D svg_data items Hok) as [imgs Hall].
  pose proof (render_all_None D svg_data items imgs Hall) as Hrend.
  assert (Hdims : Forall2 (fun size img => width img = size /\ height img = size) items imgs).
  { apply (Forall2_In_impl _ _ _ _ Hrend). intros size img Hin Hr.
    exact (render_size D svg_data items size img Hexact Hkeep Hin Hr). }
  pose proof (plan_ready D svg_path ico_path sizes w svg_data items Hfile Hsizes) as Hplan.
  rewrite Hall in Hplan.
  pose proof (saves_of_stage D svg_path ico_path sizes w) as Hsaves.
  destruct (svg_to_ico_stage D svg_path ico_path sizes w) as (_ & Hfs & Hres & _).
  rewrite Hplan in Hsaves, Hfs, Hres.
  destruct Hrend as [|size0 img0 items' rest Hr0 Hrend']; [congruence|].
  cbn in Hsaves, Hfs, Hres.
  exists (save_request ico_path img0 (img0 :: rest)).
  split; [exact Hsaves|]. split; [reflexivity|]. split; [exact Hfs|].
  split; [intros Hdone; rewrite Hres, Hdone; reflexivity|].
  split; [cbn; f_equal; symmetry; eapply Forall2_length; exact Hrend'|].
  split; [exact (declared_sizes _ _ Hdims)|].
  split; [exact Hdims|].
  split; [constructor; assumption|].
  exists size0. split; [reflexivity|exact Hr0].
Qed.

Lemma svg_to_ico_embeds_requested_sizes_witness :
  exists req,
    List.filter is_save (events (svg_to_ico toy "in.svg" "out.ico" 0%nat world_16_32)) = [EvSave req] /\
    sr_path req = "out.ico" /\
    fs (final (svg_to_ico toy "in.svg" "out.ico" 0%nat world_16_32)) =
      (image_save toy req (fs world_16_32)).1 /\
    ((image_save toy req (fs world_16_32)).2 = Done tt ->
       res (svg_to_ico toy "in.svg" "out.ico" 0%nat world_16_32) = Return true) /\
    length (embedded req) = length [16; 32] /\
    sr_sizes req = map (fun size => (size, size)) [16; 32] /\
    Forall2 (fun size img => width img = size /\ height img = size) [16; 32] (embedded req) /\
    Forall2 (fun size img => render toy svg_doc size = Done img) [16; 32] (embedded req) /\
    (exists size0, head [16; 32] = Some size0 /\ render toy svg_doc size0 = Done (sr_image req)).
Proof.
  apply (svg_to_ico_embeds_requested_sizes toy "in.svg" "out.ico" 0%nat world_16_32
           svg_doc [16; 32]).
  - reflexivity.
  - reflexivity.
  - discriminate.
  - exact toy_renders_16_32.
  - exact toy_raster_exact_16_32.
  - exact toy_convert_keeps_size.
Defined.





Lemma render_rendition D svg_data size img :
  render D svg_data size = Done img -> rendition D svg_data size img.
Proof.
  unfold render, rendition.
  destruct (svg2png D svg_data size size) as [png|] eqn:Hpng; [|discriminate].
  destruct (image_open D png) as [decoded|] eqn:Himg; [|discriminate].
  destruct (String.eqb (mode decoded) "RGBA") eqn:Hmode; intros Hr.
  - injection Hr as <-. exists png, decoded.
    split; [reflexivity|]. split; [exact Himg|].
    left. split; [apply String.eqb_eq, Hmode|reflexivity].
  - exists png, decoded.
    split; [reflexivity|]. split; [exact Himg|].
    right. split; [apply String.eqb_neq, Hmode|exact Hr].
Qed.

(** The store after a call that could read its input: the one new object is
    the [images] list, holding the renditions appended so far. *)
Lemma svg_to_ico_store D svg_path ico_path sizes w svg_data items :
  fs w !! svg_path = Some (File svg_data) ->
  heap w !! sizes = Some (PyInts items) ->
  heap (final (svg_to_ico D svg_path ico_path sizes w)) =
    heap w ++ [PyImages (render_all D svg_data items).1].
Proof.
  intros Hfile Hsizes. unfold svg_to_ico.
  erewrite bind_Return by reflexivity.
  erewrite bind_Return by (unfold open_rb; rewrite Hfile; reflexivity).
  erewrite bind_Return by reflexivity.
  set (w1 := mkWorld (fs w) (heap w ++ [PyImages []])).
  assert (Himages : heap w1 !! length (heap w) = Some (PyImages []))
    by (cbn; rewrite lookup_app_r, Nat.sub_diag by lia; reflexivity).
  assert (Hsizes1 : heap w1 !! sizes = Some (PyInts items))
    by (cbn; apply lookup_app_l_Some; exact Hsizes).
  erewrite bind_Return by (unfold get_ints; rewrite Hsizes1; reflexivity).
  destruct (for_each_run D svg_data (length (heap w)) items w1 [] Himages)
    as (evs & _ & Hloop).
  assert (Hstore : forall imgs,
            <[length (heap w) := PyImages imgs]> (heap w1) = heap w ++ [PyImages imgs]).
  { intros imgs. cbn. rewrite insert_app_r_alt by lia.
    rewrite Nat.sub_diag. reflexivity. }
  assert (Hlt : (length (heap w) < length (heap w1))%nat)
    by (cbn; rewrite length_app; cbn; lia).
  destruct (render_all D svg_data items) as [imgs [d|]] eqn:Hall; cbn in Hloop.
  - erewrite bind_Raise by exact Hloop. cbn. apply Hstore.
  - erewrite bind_Return by exact Hloop.
    erewrite bind_Return
      by (unfold get_images; cbn; rewrite list_lookup_insert_eq by exact Hlt;
          reflexivity).
    destruct imgs as [|img0 rest].
    + erewrite bind_Raise by reflexivity. cbn. apply Hstore.
    + erewrite bind_Return by reflexivity.
      unfold bind, Image_save. cbn.
      destruct (image_save D _ (fs w)) as [files' [[]|d]]; cbn; apply Hstore.
Qed.

Lemma tagging_convert_sets_mode : convert_sets_mode tagging.
Proof. intros img m img' [= <-]. reflexivity. Qed.

Lemma tag_modes_rgba (imgs : list Image) :
  Forall (fun img => mode img = "RGBA") imgs ->
  Forall (fun m => m = "RGBA") (tag_modes (map tag_of imgs)).
Proof.
  induction 1 as [|img imgs Hmode _ IH]; cbn; constructor; [|exact IH].
  unfold tag_of. rewrite Hmode. reflexivity.
Qed.

Lemma tagging_keeps_rgba : encoder_keeps_rgba tagging tag_modes.
Proof.
  intros req files content _ Hfile Hall.
  change ((image_save tagging req files).1)
    with (<[sr_path req := File (map tag_of (embedded req))]> files) in Hfile.
  rewrite lookup_insert_eq in Hfile. injection Hfile as <-.
  exact (tag_modes_rgba (embedded req) Hall).
Qed.

(** C5.  Whenever [svg_to_ico] gets as far as its [save] call, the images it
    hands over for embedding are its rendition list, which holds one
    rendition per entry of the size list, in order: the decoded image where
    the rasterised layout is RGBA, and the result of [convert('RGBA')] where
    it is not.  Every one of them has mode RGBA.  So every image embedded
    in the container of a call that returns [True] is RGBA, for an encoder
    that embeds no other layout than it was given.  (Assumes of [convert]
    that its result has the mode asked for.) *)
Theorem svg_to_ico_embeds_rgba D svg_path ico_path sizes w req :
  convert_sets_mode D ->
  In (EvSave req) (events (svg_to_ico D svg_path ico_path sizes w)) ->
  Forall (fun img => mode img = "RGBA") (embedded req) /\
  heap (final (svg_to_ico D svg_path ico_path sizes w)) !! length (heap w) =
    Some (PyImages (embedded req)) /\
  (exists svg_data items,
     fs w !! svg_path = Some (File svg_data) /\
     heap w !! sizes = Some (PyInts items) /\
     Forall2 (rendition D svg_data) items (embedded req)) /\
  (forall modes_in content,
     encoder_keeps_rgba D modes_in ->
     res (svg_to_ico D svg_path ico_path sizes w) = Return true ->
     fs (final (svg_to_ico D svg_path ico_path sizes w)) !! ico_path = Some (File content) ->
     Forall (fun m => m = "RGBA") (modes_in content)).
Proof.
  intros Hconv Hin.
  apply save_event_stage in Hin. pose proof Hin as Hplan.
  apply plan_ReachSave in Hin.
  destruct Hin as (svg_data & items & img0 & rest & Hfile & Hsizes & Hall & ->).
  assert (Hitems : heap w !! sizes = Some (PyInts items)).
  { apply lookup_app_Some in Hsizes. destruct Hsizes as [Hsizes|[_ Hsizes]];
      [exact Hsizes|].
    destruct (sizes - length (heap w))%nat as [|[|k]]; cbn in Hsizes;
      discriminate. }
  pose proof (svg_to_ico_store D svg_path ico_path sizes w svg_data items Hfile Hitems)
    as Hstore.
  rewrite Hall in Hstore. cbn [fst] in Hstore.
  pose proof (render_all_None D svg_data items _ Hall) as Hrend.
  assert (Hrgba : Forall (fun img => mode img = "RGBA") (img0 :: rest)).
  { apply (Forall2_Forall_right _ _ _ _ Hrend).
    intros size img Hr. exact (render_mode D svg_data size img Hconv Hr). }
  change (embedded (save_request ico_path img0 (img0 :: rest))) with (img0 :: rest).
  split; [exact Hrgba|]. split.
  { rewrite Hstore, lookup_app_r, Nat.sub_diag by lia. reflexivity. }
  split.
  { exists svg_data, items. split; [exact Hfile|]. split; [exact Hitems|].
    apply (Forall2_In_impl _ _ _ _ Hrend). intros size img _ Hr.
    exact (render_rendition D svg_data size img Hr). }
  intros modes_in content Hkeep Hres Hcontent.
  destruct (svg_to_ico_stage D svg_path ico_path sizes w) as (_ & Hfs & Hst & _).
  rewrite Hst, Hplan in Hres. rewrite Hfs, Hplan in Hcontent. cbn in Hres, Hcontent.
  apply (Hkeep (save_request ico_path img0 (img0 :: rest)) (fs w) content).
  - destruct (image_save D _ (fs w)).2 as [[]|d]; [reflexivity|discriminate].
  - exact Hcontent.
  - exact Hrgba.
Qed.

Lemma svg_to_ico_embeds_rgba_witness :
  Forall (fun img => mode img = "RGBA") (embedded toy_request) /\
  Forall (fun m => m = "RGBA") (tag_modes [Byte.x01; Byte.x01]).
Proof.
  assert (Hin : In (EvSave toy_request)
                  (events (svg_to_ico tagging "in.svg" "out.ico" 0%nat world_16_32)))
    by (vm_compute; do 10 right; left; reflexivity).
  destruct (svg_to_ico_embeds_rgba tagging "in.svg" "out.ico" 0%nat world_16_32
              toy_request tagging_convert_sets_mode Hin) as (Hrgba & _ & _ & Hfile).
  split; [exact Hrgba|].
  apply (Hfile tag_modes [Byte.x01; Byte.x01] tagging_keeps_rgba);
    vm_compute; reflexivity.
Defined.

(** C9.  [svg_to_ico] never returns anything but [True]: a call either
    returns [True] or ends in an exception. *)
Theorem svg_to_ico_returns_True_or_raises D svg_path ico_path sizes w :
  res (svg_to_ico D svg_path ico_path sizes w) = Return true \/
  exists e, res (svg_to_ico D svg_path ico_path sizes w) = Raise e.
Proof.
  destruct (svg_to_ico_stage D svg_path ico_path sizes w) as (_ & _ & -> & _).
  destruct (plan D svg_path ico_path sizes w) as [e| |d| |req]; cbn; eauto.
  destruct (image_save D req (fs w)).2; eauto.
Qed.

(** C6, as the code has it.  [svg_to_ico] touches the file system through
    its one final [save] call and nowhere else.  A call that ends before
    that point (input unreadable, a dependency raising during the loop, an
    empty size list) ends in an exception with the file system exactly as it
    was.  A call that reaches [save] leaves the file system as [save] left
    it, whether [save] succeeded or raised: the script adds no temporary
    file, rename or clean-up of its own. *)
Theorem svg_to_ico_writes_only_by_save D svg_path ico_path sizes w :
  (List.filter is_save (events (svg_to_ico D svg_path ico_path sizes w)) = [] /\
   fs (final (svg_to_ico D svg_path ico_path sizes w)) = fs w /\
   exists e, res (svg_to_ico D svg_path ico_path sizes w) = Raise e) \/
  (exists req,
     List.filter is_save (events (svg_to_ico D svg_path ico_path sizes w)) = [EvSave req] /\
     sr_path req = ico_path /\
     fs (final (svg_to_ico D svg_path ico_path sizes w)) = (image_save D req (fs w)).1 /\
     res (svg_to_ico D svg_path ico_path sizes w) =
       match (image_save D req (fs w)).2 with
       | Done _ => Return true
       | Failed d => Raise (LibError d)
       end).
Proof.
  rewrite (saves_of_stage D svg_path ico_path sizes w).
  destruct (svg_to_ico_stage D svg_path ico_path sizes w) as (_ & -> & -> & _).
  destruct (plan D svg_path ico_path sizes w) as [e| |d| |req] eqn:Hplan; cbn;
    try (left; repeat split; eexists; reflexivity).
  right. exists req. repeat split.
  apply plan_ReachSave in Hplan.
  destruct Hplan as (svg_data & items & img0 & rest & _ & _ & _ & ->).
  reflexivity.
Qed.

(** C6, as the specification has it, fails: when [save] runs out of disk
    space after its first byte, the call ends in an exception and leaves a
    one-byte file at an output path that did not exist before. *)
Lemma svg_to_ico_leaves_partial_output :
  fs world_16_32 !! "out.ico" = None /\
  res (svg_to_ico full_disk "in.svg" "out.ico" 0%nat world_16_32) =
    Raise (LibError "OSError: No space left on device") /\
  fs (final (svg_to_ico full_disk "in.svg" "out.ico" 0%nat world_16_32)) !! "out.ico" =
    Some (File [Byte.x2a]).
Proof. repeat split; vm_compute; reflexivity. Qed.

(** C2, as the code has it.  With an empty size list [svg_to_ico] checks
    nothing up front: it opens and reads the input file, runs the loop zero
    times, and ends at [images[0]] with [IndexError] (or earlier, with the
    exception of [open], when the input cannot be read).  No [save] call is
    made and the file system is left as it was. *)
Theorem svg_to_ico_empty_sizes D svg_path ico_path sizes w :
  heap w !! sizes = Some (PyInts []) ->
  List.filter is_file_io (events (svg_to_ico D svg_path ico_path sizes w)) = [EvOpenRb svg_path] /\
  fs (final (svg_to_ico D svg_path ico_path sizes w)) = fs w /\
  res (svg_to_ico D svg_path ico_path sizes w) =
    match fs w !! svg_path with
    | Some (File _) => Raise IndexError
    | Some Dir => Raise (IsADirectoryError svg_path)
    | None => Raise (FileNotFoundError svg_path)
    end.
Proof.
  intros Hsizes.
  destruct (svg_to_ico_stage D svg_path ico_path sizes w) as (-> & -> & -> & _).
  unfold plan. rewrite (lookup_app_l_Some _ _ _ _ Hsizes).
  destruct (fs w !! svg_path) as [[svg_data|]|]; cbn; repeat split.
Qed.

Lemma svg_to_ico_empty_sizes_witness :
  List.filter is_file_io (events (svg_to_ico toy "in.svg" "out.ico" 0%nat world_empty_sizes)) =
    [EvOpenRb "in.svg"] /\
  fs (final (svg_to_ico toy "in.svg" "out.ico" 0%nat world_empty_sizes)) = fs world_empty_sizes /\
  res (svg_to_ico toy "in.svg" "out.ico" 0%nat world_empty_sizes) =
    match fs world_empty_sizes !! "in.svg" with
    | Some (File _) => Raise IndexError
    | Some Dir => Raise (IsADirectoryError "in.svg")
    | None => Raise (FileNotFoundError "in.svg")
    end.
Proof.
  apply (svg_to_ico_empty_sizes toy "in.svg" "out.ico" 0%nat world_empty_sizes).
  reflexivity.
Defined.

(** C2, as the specification has it, fails: on an empty size list the call
    does file I/O (it opens the input) and what it raises is the
    [IndexError] of [images[0]], not a size check. *)
Lemma svg_to_ico_empty_sizes_reads_input :
  List.filter is_file_io (events (svg_to_ico toy "in.svg" "out.ico" 0%nat world_empty_sizes)) <> [] /\
  res (svg_to_ico toy "in.svg" "out.ico" 0%nat world_empty_sizes) = Raise IndexError.
Proof. split; vm_compute; [discriminate|reflexivity]. Qed.

(** C4, as the code has it.  [svg_to_ico] inspects no entry of the size
    list: each is passed on to the rasteriser as it is.  For a readable
    input and a non-empty list the call returns [True] exactly when every
    rendition and the final [save] succeed, and otherwise ends in the
    exception of the dependency that failed, untranslated. *)
Theorem svg_to_ico_fails_only_in_dependencies
  D svg_path ico_path sizes w svg_data items :
  fs w !! svg_path = Some (File svg_data) ->
  heap w !! sizes = Some (PyInts items) ->
  items <> [] ->
  (res (svg_to_ico D svg_path ico_path sizes w) = Return true \/
   exists d, res (svg_to_ico D svg_path ico_path sizes w) = Raise (LibError d)) /\
  (res (svg_to_ico D svg_path ico_path sizes w) = Return true <->
   renders D svg_data items /\
   exists req,
     List.filter is_save (events (svg_to_ico D svg_path ico_path sizes w)) = [EvSave req] /\
     (image_save D req (fs w)).2 = Done tt).
Proof.
  intros Hfile Hsizes Hne.
  pose proof (plan_ready D svg_path ico_path sizes w svg_data items Hfile Hsizes) as Hplan.
  rewrite (saves_of_stage D svg_path ico_path sizes w).
  destruct (svg_to_ico_stage D svg_path ico_path sizes w) as (_ & _ & -> & _).
  rewrite Hplan. clear Hplan.
  destruct (render_all D svg_data items) as [imgs [d|]] eqn:Hall.
  - cbn. split; [right; eauto|]. split; [discriminate|].
    intros [Hok _]. apply render_all_ok in Hok. destruct Hok as [imgs' Hok].
    congruence.
  - apply render_all_None in Hall.
    assert (Hok : renders D svg_data items)
      by (apply (Forall2_Forall_left _ _ _ _ Hall); eauto).
    destruct Hall as [|size0 img0 items' rest _ _]; [congruence|].
    cbn. set (req0 := save_request ico_path img0 (img0 :: rest)).
    destruct (image_save D req0 (fs w)).2 as [[]|d] eqn:Hsave.
    + split; [left; reflexivity|]. split; [|reflexivity].
      intros _. split; [exact Hok|]. exists req0. split; [reflexivity|exact Hsave].
    + split; [right; eauto|]. split; [discriminate|].
      intros (_ & req & [= <-] & Hdone). congruence.
Qed.

Lemma svg_to_ico_fails_only_in_dependencies_witness :
  (res (svg_to_ico toy "in.svg" "out.ico" 0%nat world_16_32) = Return true \/
   exists d, res (svg_to_ico toy "in.svg" "out.ico" 0%nat world_16_32) = Raise (LibError d)) /\
  (res (svg_to_ico toy "in.svg" "out.ico" 0%nat world_16_32) = Return true <->
   renders toy svg_doc [16; 32] /\
   exists req,
     List.filter is_save (events (svg_to_ico toy "in.svg" "out.ico" 0%nat world_16_32)) =
       [EvSave req] /\
     (image_save toy req (fs world_16_32)).2 = Done tt).
Proof.
  apply (svg_to_ico_fails_only_in_dependencies toy "in.svg" "out.ico" 0%nat world_16_32
           svg_doc [16; 32]).
  - reflexivity.
  - reflexivity.
  - discriminate.
Defined.

(** C4, as the specification has it, fails: a size list holding 2048, above
    the bound of 1024 the specification suggests, is rendered and saved, and
    the call returns [True]. *)
Lemma svg_to_ico_accepts_size_2048 :
  Exists (invalid_size 1024) [2048] /\
  heap world_2048 !! 0%nat = Some (PyInts [2048]) /\
  res (svg_to_ico toy "in.svg" "out.ico" 0%nat world_2048) = Return true.
Proof.
  split; [left; right; reflexivity|].
  split; [reflexivity|]. vm_compute. reflexivity.
Qed.

Lemma plan_agree D svg_path ico_path sizes1 sizes2 w1 w2 items :
  fs w1 !! svg_path = fs w2 !! svg_path ->
  heap w1 !! sizes1 = Some (PyInts items) ->
  heap w2 !! sizes2 = Some (PyInts items) ->
  plan D svg_path ico_path sizes1 w1 = plan D svg_path ico_path sizes2 w2.
Proof.
  intros Hfs H1 H2. unfold plan.
  rewrite Hfs, (lookup_app_l_Some _ _ _ _ H1), (lookup_app_l_Some _ _ _ _ H2).
  reflexivity.
Qed.

(** C8.  Two runs of [svg_to_ico] on the same input bytes, the same sizes
    and the same output path hand the same request to the encoder, and when
    both return [True] the output path holds the same bytes after each.
    The dependencies are functions of their arguments (deterministic), and
    the bytes a successful [save] leaves at its path depend on its request
    only. *)
Theorem svg_to_ico_deterministic
  D svg_path ico_path sizes1 sizes2 w1 w2 items :
  save_overwrites D ->
  fs w1 !! svg_path = fs w2 !! svg_path ->
  heap w1 !! sizes1 = Some (PyInts items) ->
  heap w2 !! sizes2 = Some (PyInts items) ->
  List.filter is_save (events (svg_to_ico D svg_path ico_path sizes1 w1)) =
  List.filter is_save (events (svg_to_ico D svg_path ico_path sizes2 w2)) /\
  (res (svg_to_ico D svg_path ico_path sizes1 w1) = Return true ->
   res (svg_to_ico D svg_path ico_path sizes2 w2) = Return true ->
   fs (final (svg_to_ico D svg_path ico_path sizes1 w1)) !! ico_path =
   fs (final (svg_to_ico D svg_path ico_path sizes2 w2)) !! ico_path).
Proof.
  intros Hsave Hfs H1 H2.
  pose proof (plan_agree D svg_path ico_path sizes1 sizes2 w1 w2 items Hfs H1 H2) as Hplan.
  rewrite !saves_of_stage, Hplan. split; [reflexivity|].
  destruct (svg_to_ico_stage D svg_path ico_path sizes1 w1) as (_ & -> & -> & _).
  destruct (svg_to_ico_stage D svg_path ico_path sizes2 w2) as (_ & -> & -> & _).
  rewrite Hplan. intros Hr1 Hr2.
  apply stage_res_True in Hr1. destruct Hr1 as (req & Hst & Hd1).
  rewrite Hst in Hr2 |- *.
  apply stage_res_True in Hr2. destruct Hr2 as (req' & [= <-] & Hd2).
  rewrite <- Hplan in Hst. apply plan_ReachSave in Hst.
  destruct Hst as (svg_data & items' & img0 & rest & _ & _ & _ & Hreq).
  assert (Hpath : sr_path req = ico_path) by (rewrite Hreq; reflexivity).
  cbn. rewrite <- Hpath. apply Hsave; assumption.
Qed.

(** The second run starts where the first one ended. *)
Lemma svg_to_ico_deterministic_witness :
  List.filter is_save (events (svg_to_ico toy "in.svg" "out.ico" 0%nat world_16_32)) =
  List.filter is_save
    (events (svg_to_ico toy "in.svg" "out.ico" 0%nat
               (final (svg_to_ico toy "in.svg" "out.ico" 0%nat world_16_32)))) /\
  (res (svg_to_ico toy "in.svg" "out.ico" 0%nat world_16_32) = Return true ->
   res (svg_to_ico toy "in.svg" "out.ico" 0%nat
          (final (svg_to_ico toy "in.svg" "out.ico" 0%nat world_16_32))) = Return true ->
   fs (final (svg_to_ico toy "in.svg" "out.ico" 0%nat world_16_32)) !! "out.ico" =
   fs (final (svg_to_ico toy "in.svg" "out.ico" 0%nat
                (final (svg_to_ico toy "in.svg" "out.ico" 0%nat world_16_32)))) !! "out.ico").
Proof.
  apply (svg_to_ico_deterministic toy "in.svg" "out.ico" 0%nat 0%nat world_16_32
           (final (svg_to_ico toy "in.svg" "out.ico" 0%nat world_16_32)) [16; 32]).
  - exact toy_save_overwrites.
  - vm_compute. reflexivity.
  - reflexivity.
  - vm_compute. reflexivity.
Defined.

Lemma opens_of_stage D svg_path ico_path sizes w :
  List.filter is_open (events (svg_to_ico D svg_path ico_path sizes w)) = [EvOpenRb svg_path].
Proof.
  destruct (svg_to_ico_stage D svg_path ico_path sizes w) as (Hio & _).
  rewrite <- (filter_narrow is_open is_file_io) by exact open_is_file_io.
  rewrite Hio. destruct (plan D svg_path ico_path sizes w); reflexivity.
Qed.

Lemma probes_of_stage D svg_path ico_path sizes w :
  List.filter is_probe (events (svg_to_ico D svg_path ico_path sizes w)) = [].
Proof.
  destruct (svg_to_ico_stage D svg_path ico_path sizes w) as (Hio & _).
  rewrite <- (filter_narrow is_probe is_file_io) by exact probe_is_file_io.
  rewrite Hio. destruct (plan D svg_path ico_path sizes w); reflexivity.
Qed.

(** The list [def] creates is the default list, at the location it returns. *)
Lemma def_svg_to_ico_default w :
  heap (final (def_svg_to_ico w)) !! length (heap w) = Some (PyInts default_sizes) /\
  res (def_svg_to_ico w) = Return (length (heap w)).
Proof.
  split; [|reflexivity]. cbn.
  rewrite lookup_app_r, Nat.sub_diag by lia. reflexivity.
Qed.

(** C10, as the code has it.  Unconditionally: [svg_to_ico] leaves every
    list object that existed before the call as it was, so neither its
    [sizes] argument nor the shared default list is mutated; it opens the
    input path once, for reading; and its only write is the [save] to
    [ico_path].  Hence the input file is the same after the call whenever
    [ico_path] does not name the same file as [svg_path], for any notion of
    "same file" that [save] respects. *)
Theorem svg_to_ico_frame D svg_path ico_path sizes w :
  (forall l o, heap w !! l = Some o ->
     heap (final (svg_to_ico D svg_path ico_path sizes w)) !! l = Some o) /\
  (heap w !! sizes = Some (PyInts default_sizes) ->
     heap (final (svg_to_ico D svg_path ico_path sizes w)) !! sizes =
       Some (PyInts default_sizes)) /\
  List.filter is_open (events (svg_to_ico D svg_path ico_path sizes w)) = [EvOpenRb svg_path] /\
  (forall req, In (EvSave req) (events (svg_to_ico D svg_path ico_path sizes w)) ->
     sr_path req = ico_path) /\
  (forall same_file : string -> string -> Prop,
     ~ same_file svg_path ico_path ->
     save_respects D same_file ->
     fs (final (svg_to_ico D svg_path ico_path sizes w)) !! svg_path = fs w !! svg_path).
Proof.
  destruct (svg_to_ico_stage D svg_path ico_path sizes w) as (_ & Hfs & _ & Hheap).
  split; [exact Hheap|]. split; [apply Hheap|].
  split; [apply opens_of_stage|]. split.
  - intros req Hin. apply save_event_stage, plan_ReachSave in Hin.
    destruct Hin as (svg_data & items & img0 & rest & _ & _ & _ & ->). reflexivity.
  - intros same_file Hother Hframe. rewrite Hfs.
    destruct (plan D svg_path ico_path sizes w) as [e| |d| |req] eqn:Hplan;
      try reflexivity.
    cbn. apply Hframe.
    apply plan_ReachSave in Hplan.
    destruct Hplan as (svg_data & items & img0 & rest & _ & _ & _ & ->).
    exact Hother.
Qed.

Lemma toy_save_respects_eq : save_respects toy eq.
Proof.
  intros req files path Hne. cbn.
  apply lookup_insert_ne. congruence.
Qed.

Lemma svg_to_ico_frame_witness :
  fs (final (svg_to_ico toy "in.svg" "out.ico" 0%nat world0)) !! "in.svg" =
    fs world0 !! "in.svg".
Proof.
  apply (svg_to_ico_frame toy "in.svg" "out.ico" 0%nat world0) with (same_file := eq).
  - discriminate.
  - exact toy_save_respects_eq.
Defined.

(** C10, as the specification has it, fails: called with the input path as
    output path, [svg_to_ico] returns [True] and the input file no longer
    holds the vector document. *)
Lemma svg_to_ico_overwrites_input_when_paths_coincide :
  fs world_16_32 !! "in.svg" = Some (File svg_doc) /\
  res (svg_to_ico toy "in.svg" "in.svg" 0%nat world_16_32) = Return true /\
  fs (final (svg_to_ico toy "in.svg" "in.svg" 0%nat world_16_32)) !! "in.svg" <>
    Some (File svg_doc).
Proof.
  split; [reflexivity|]. split; vm_compute; [reflexivity|discriminate].
Qed.

(** ** The entry point *)

Lemma main_default_missing D script_dir sizes w :
  fs w !! default_svg_path D script_dir = None ->
  main D script_dir sizes w =
    match fs w !! alternate_svg_path D script_dir with
    | None =>
        mkRun [EvExists (default_svg_path D script_dir);
               EvExists (alternate_svg_path D script_dir);
               EvPrint ("SVG file not found: " +:+ alternate_svg_path D script_dir)]
          w (Raise (SystemExit 1))
    | Some _ =>
        let s := svg_to_ico D (alternate_svg_path D script_dir)
                   (default_ico_path D script_dir) sizes w in
        mkRun ([EvExists (default_svg_path D script_dir);
                EvExists (alternate_svg_path D script_dir)] ++ events s)
          (final s)
          match res s with
          | Return _ => Return tt
          | Raise e => Raise e
          end
    end.
Proof.
  intros Hdefault. unfold main, bind, os_path_exists, ret, print, emit, sys_exit, raise.
  cbn. rewrite Hdefault. cbn.
  destruct (fs w !! alternate_svg_path D script_dir) as [n|]; cbn; [|reflexivity].
  destruct (res (svg_to_ico D _ _ sizes w)); cbn; rewrite ?app_nil_r; reflexivity.
Qed.

(** C3.  When neither the default input path nor the alternate path exists,
    the entry point probes the two paths, prints the "SVG file not found"
    line and exits with status 1.  Nothing else happens: the rasteriser is
    never called, no file is opened or saved, and the world (file system
    and store) is the one the script started in. *)
Theorem main_input_not_found D script_dir sizes w :
  fs w !! default_svg_path D script_dir = None ->
  fs w !! alternate_svg_path D script_dir = None ->
  events (main D script_dir sizes w) =
    [EvExists (default_svg_path D script_dir);
     EvExists (alternate_svg_path D script_dir);
     EvPrint ("SVG file not found: " +:+ alternate_svg_path D script_dir)] /\
  List.filter is_raster (events (main D script_dir sizes w)) = [] /\
  List.filter is_save (events (main D script_dir sizes w)) = [] /\
  final (main D script_dir sizes w) = w /\
  res (main D script_dir sizes w) = Raise (SystemExit 1) /\
  exit_status (res (main D script_dir sizes w)) = 1.
Proof.
  intros Hdefault Halt.
  rewrite (main_default_missing D script_dir sizes w Hdefault), Halt.
  repeat split.
Qed.

Lemma main_input_not_found_witness :
  events (main toy "/app" 0%nat world_bare) =
    [EvExists (default_svg_path toy "/app");
     EvExists (alternate_svg_path toy "/app");
     EvPrint ("SVG file not found: " +:+ alternate_svg_path toy "/app")] /\
  List.filter is_raster (events (main toy "/app" 0%nat world_bare)) = [] /\
  List.filter is_save (events (main toy "/app" 0%nat world_bare)) = [] /\
  final (main toy "/app" 0%nat world_bare) = world_bare /\
  res (main toy "/app" 0%nat world_bare) = Raise (SystemExit 1) /\
  exit_status (res (main toy "/app" 0%nat world_bare)) = 1.
Proof.
  apply (main_input_not_found toy "/app" 0%nat world_bare); reflexivity.
Defined.

(** C7.  When the default input path does not exist, the entry point probes
    one more path, the alternate next to the script's parent, and no other:
    its existence probes are the default and then the alternate.  It gives
    up (exit status 1 through [sys.exit]) exactly when the alternate does
    not exist either; when it exists, the run continues as [svg_to_ico] on
    the alternate path and the default output path. *)
Theorem main_probes_one_alternate D script_dir sizes w :
  fs w !! default_svg_path D script_dir = None ->
  List.filter is_probe (events (main D script_dir sizes w)) =
    [EvExists (default_svg_path D script_dir);
     EvExists (alternate_svg_path D script_dir)] /\
  (res (main D script_dir sizes w) = Raise (SystemExit 1) <->
   fs w !! alternate_svg_path D script_dir = None) /\
  (is_Some (fs w !! alternate_svg_path D script_dir) ->
   events (main D script_dir sizes w) =
     [EvExists (default_svg_path D script_dir);
      EvExists (alternate_svg_path D script_dir)] ++
     events (svg_to_ico D (alternate_svg_path D script_dir)
               (default_ico_path D script_dir) sizes w) /\
   final (main D script_dir sizes w) =
     final (svg_to_ico D (alternate_svg_path D script_dir)
              (default_ico_path D script_dir) sizes w)).
Proof.
  intros Hdefault.
  rewrite (main_default_missing D script_dir sizes w Hdefault).
  destruct (fs w !! alternate_svg_path D script_dir) as [n|] eqn:Halt.
  - cbn -[svg_to_ico]. rewrite probes_of_stage.
    split; [reflexivity|]. split; [|intros _; split; reflexivity].
    split; [|discriminate]. intros Hexit. exfalso.
    destruct (svg_to_ico_stage D (alternate_svg_path D script_dir)
                (default_ico_path D script_dir) sizes w) as (_ & _ & Hres & _).
    rewrite Hres in Hexit.
    destruct (stage_res D (fs w) _) as [b|e] eqn:Hst; [discriminate|].
    injection Hexit as ->. exact (plan_no_exit _ _ _ _ _ _ Hst).
  - cbn. split; [reflexivity|]. split; [split; reflexivity|].
    intros [n Hn]. discriminate.
Qed.

Lemma main_probes_one_alternate_witness :
  List.filter is_probe (events (main toy "/app" 0%nat world_alternate)) =
    [EvExists (default_svg_path toy "/app");
     EvExists (alternate_svg_path toy "/app")] /\
  (res (main toy "/app" 0%nat world_alternate) = Raise (SystemExit 1) <->
   fs world_alternate !! alternate_svg_path toy "/app" = None) /\
  (is_Some (fs world_alternate !! alternate_svg_path toy "/app") ->
   events (main toy "/app" 0%nat world_alternate) =
     [EvExists (default_svg_path toy "/app");
      EvExists (alternate_svg_path toy "/app")] ++
     events (svg_to_ico toy (alternate_svg_path toy "/app")
               (default_ico_path toy "/app") 0%nat world_alternate) /\
   final (main toy "/app" 0%nat world_alternate) =
     final (svg_to_ico toy (alternate_svg_path toy "/app")
              (default_ico_path toy "/app") 0%nat world_alternate)).
Proof.
  apply (main_probes_one_alternate toy "/app" 0%nat world_alternate).
  reflexivity.
Defined.

(** The store across the whole module: the default list that [def] creates
    is still the default list when the [__main__] block is over. *)
Lemma main_keeps_store D script_dir sizes w l o :
  heap w !! l = Some o ->
  heap (final (main D script_dir sizes w)) !! l = Some o.
Proof.
  intros Hl. unfold main, bind, os_path_exists, ret, print, emit, sys_exit, raise.
  cbn -[svg_to_ico].
  destruct (bool_decide (is_Some (fs w !! default_svg_path D script_dir)));
    cbn -[svg_to_ico];
    match goal with
    | |- context [bool_decide ?P] => destruct (bool_decide P)
    end; cbn -[svg_to_ico]; try exact Hl;
    match goal with
    | |- context [svg_to_ico D ?p ?q sizes w] =>
        destruct (svg_to_ico_stage D p q sizes w) as (_ & _ & _ & Hkeep);
        destruct (res (svg_to_ico D p q sizes w)); cbn -[svg_to_ico];
        apply Hkeep, Hl
    end.
Qed.

Lemma script_keeps_default D script_dir w :
  heap (final (script D script_dir w)) !! length (heap w) = Some (PyInts default_sizes).
Proof.
  destruct (def_svg_to_ico_default w) as [Hdef _].
  pose proof (main_keeps_store D script_dir (length (heap w))
                (final (def_svg_to_ico w)) _ _ Hdef) as Hkeep.
  unfold script, bind. cbn -[main] in *.
  destruct (res (main D script_dir (length (heap w))
                   (mkWorld (fs w) (heap w ++ [PyInts default_sizes]))));
    exact Hkeep.
Qed.

(** ** The exact trace of a call *)

Section Trace.
Variable D : Deps.
Variable svg_data : bytes.
Variable images : loc.

Lemma loop_body_exact size w acc :
  heap w !! images = Some (PyImages acc) ->
  loop_body D svg_data images size w =
    match render D svg_data size with
    | Done img =>
        mkRun (body_events D svg_data size)
          (mkWorld (fs w) (<[images := PyImages (acc ++ [img])]> (heap w)))
          (Return tt)
    | Failed d => mkRun (body_events D svg_data size) w (Raise (LibError d))
    end.
Proof.
  intros Hacc.
  unfold loop_body, body_events, render, cairosvg_svg2png, Image_open, Image_convert,
    print, bind, emit, lift, list_append, ret, raise; cbn.
  destruct (svg2png D svg_data size size) as [png|d]; cbn; [|reflexivity].
  destruct (image_open D png) as [img|d]; cbn; [|reflexivity].
  destruct (String.eqb (mode img) "RGBA"); cbn.
  - rewrite Hacc. reflexivity.
  - destruct (image_convert D img "RGBA") as [img'|d]; cbn; [|reflexivity].
    rewrite Hacc. reflexivity.
Qed.

Lemma for_each_events sizes : forall w acc,
  heap w !! images = Some (PyImages acc) ->
  events (for_each sizes (loop_body D svg_data images) w) = loop_events D svg_data sizes.
Proof.
  induction sizes as [|size rest IH]; intros w acc Hacc; [reflexivity|].
  cbn [for_each loop_events]. unfold bind at 1.
  rewrite (loop_body_exact size w acc Hacc).
  destruct (render D svg_data size) as [img|d]; cbn [res events final].
  - f_equal. apply (IH _ (acc ++ [img])). cbn.
    apply list_lookup_insert_eq. eapply lookup_lt_Some. exact Hacc.
  - rewrite app_nil_r. reflexivity.
Qed.

End Trace.

Lemma svg_to_ico_trace D svg_path ico_path sizes w :
  events (svg_to_ico D svg_path ico_path sizes w) = trace_of D svg_path ico_path sizes w.
Proof.
  unfold svg_to_ico, trace_of, plan.
  erewrite bind_Return by reflexivity. cbn [events app].
  change ("Converting " +:+ svg_path +:+ " to " +:+ ico_path)
    with (converting_line svg_path ico_path).
  f_equal.
  destruct (fs w !! svg_path) as [[svg_data|]|] eqn:Hfile.
  2,3: erewrite bind_Raise by (unfold open_rb; rewrite Hfile; reflexivity);
       reflexivity.
  erewrite bind_Return by (unfold open_rb; rewrite Hfile; reflexivity).
  cbn [events app]. f_equal.
  erewrite bind_Return by reflexivity. cbn [events app].
  set (w1 := mkWorld (fs w) (heap w ++ [PyImages []])).
  assert (Himages : heap w1 !! length (heap w) = Some (PyImages []))
    by (cbn; rewrite lookup_app_r, Nat.sub_diag by lia; reflexivity).
  change (heap w ++ [PyImages []]) with (heap w1).
  destruct (heap w1 !! sizes) as [[items|items]|] eqn:Hsizes.
  2,3: erewrite bind_Raise by (unfold get_ints; rewrite Hsizes; reflexivity);
       reflexivity.
  erewrite bind_Return by (unfold get_ints; rewrite Hsizes; reflexivity).
  cbn [events app].
  pose proof (for_each_events D svg_data (length (heap w)) items w1 [] Himages) as Hevs.
  destruct (for_each_run D svg_data (length (heap w)) items w1 [] Himages)
    as (evs & _ & Hloop).
  rewrite Hloop in Hevs. cbn [events] in Hevs. subst evs.
  assert (Hlt : (length (heap w) < length (heap w1))%nat)
    by (cbn; rewrite length_app; cbn; lia).
  destruct (render_all D svg_data items) as [imgs [d|]] eqn:Hall; cbn in Hloop.
  - erewrite bind_Raise by exact Hloop. cbn. rewrite app_nil_r. reflexivity.
  - erewrite bind_Return by exact Hloop. cbn [events]. f_equal.
    erewrite bind_Return
      by (unfold get_images; cbn; rewrite list_lookup_insert_eq by exact Hlt;
          reflexivity).
    destruct imgs as [|img0 rest].
    + erewrite bind_Raise by reflexivity. reflexivity.
    + erewrite bind_Return by reflexivity.
      fold (save_request ico_path img0 (img0 :: rest)).
      unfold bind, Image_save, print, emit, ret. cbn.
      destruct (image_save D (save_request ico_path img0 (img0 :: rest)) (fs w))
        as [files' [[]|d]]; reflexivity.
Qed.

(** ** Reading the loop's events *)

Section LoopEvents.
Variable D : Deps.
Variable svg_data : bytes.

Lemma printed_app evs1 evs2 : printed (evs1 ++ evs2) = printed evs1 ++ printed evs2.
Proof. apply flat_map_app. Qed.

Lemma printed_body size : printed (body_events D svg_data size) = [creating_line size].
Proof.
  unfold body_events. cbn.
  destruct (svg2png D svg_data size size) as [png|]; cbn; [|reflexivity].
  destruct (image_open D png) as [img|]; cbn; [|reflexivity].
  destruct (String.eqb (mode img) "RGBA"); reflexivity.
Qed.

Lemma raster_body size :
  List.filter is_raster (body_events D svg_data size) = [EvSvg2png svg_data size size].
Proof.
  unfold body_events. cbn.
  destruct (svg2png D svg_data size size) as [png|]; cbn; [|reflexivity].
  destruct (image_open D png) as [img|]; cbn; [|reflexivity].
  destruct (String.eqb (mode img) "RGBA"); reflexivity.
Qed.

(** While the renditions succeed, the loop goes on. *)
Lemma loop_events_prefix pre rest :
  renders D svg_data pre ->
  loop_events D svg_data (pre ++ rest) =
    flat_map (body_events D svg_data) pre ++ loop_events D svg_data rest.
Proof.
  induction 1 as [|size pre [img Hr] _ IH]; cbn [app flat_map loop_events];
    [reflexivity|].
  rewrite Hr, IH, app_assoc. reflexivity.
Qed.

Lemma printed_bodies sizes :
  printed (flat_map (body_events D svg_data) sizes) = map creating_line sizes.
Proof.
  induction sizes as [|size rest IH]; cbn [flat_map map]; [reflexivity|].
  rewrite printed_app, printed_body, IH. reflexivity.
Qed.

Lemma raster_bodies sizes :
  List.filter is_raster (flat_map (body_events D svg_data) sizes) =
    map (fun size => EvSvg2png svg_data size size) sizes.
Proof.
  induction sizes as [|size rest IH]; cbn [flat_map map]; [reflexivity|].
  rewrite List.filter_app, raster_body, IH. reflexivity.
Qed.

Lemma loop_events_stop size post d :
  render D svg_data size = Failed d ->
  loop_events D svg_data (size :: post) = body_events D svg_data size.
Proof. intros Hr. cbn [loop_events]. rewrite Hr. apply app_nil_r. Qed.

Lemma render_all_stop pre size post d :
  renders D svg_data pre ->
  render D svg_data size = Failed d ->
  exists imgs, render_all D svg_data (pre ++ size :: post) = (imgs, Some d).
Proof.
  intros Hpre Hr. induction Hpre as [|size' pre [img Hr'] _ [imgs IH]]; cbn.
  - rewrite Hr. eexists; reflexivity.
  - rewrite Hr', IH. eexists; reflexivity.
Qed.

(** Every event of the loop belongs to one turn of it. *)
Lemma loop_events_In e sizes :
  In e (loop_events D svg_data sizes) ->
  exists size, In size sizes /\ In e (body_events D svg_data size).
Proof.
  induction sizes as [|size rest IH]; cbn [loop_events In]; [intros []|].
  intros Hin. apply in_app_or in Hin. destruct Hin as [Hin|Hin].
  - exists size. auto.
  - destruct (render D svg_data size); [|destruct Hin].
    destruct (IH Hin) as (size' & Hin' & He). exists size'. auto.
Qed.

Lemma body_events_print line size :
  In (EvPrint line) (body_events D svg_data size) -> line = creating_line size.
Proof.
  unfold body_events. intros [[= <-]|[[=]|Hin]]; [reflexivity|].
  destruct (svg2png D svg_data size size) as [png|]; [|destruct Hin].
  destruct Hin as [[=]|Hin].
  destruct (image_open D png) as [img|]; [|destruct Hin].
  destruct (String.eqb (mode img) "RGBA"); [destruct Hin|].
  destruct Hin as [[=]|[]].
Qed.

Lemma body_events_convert img to_mode size :
  In (EvConvert img to_mode) (body_events D svg_data size) ->
  to_mode = "RGBA" /\ mode img <> "RGBA" /\
  exists png, svg2png D svg_data size size = Done png /\ image_open D png = Done img.
Proof.
  unfold body_events. intros [[=]|[[=]|Hin]].
  destruct (svg2png D svg_data size size) as [png|] eqn:Hpng; [|destruct Hin].
  destruct Hin as [[=]|Hin].
  destruct (image_open D png) as [img1|] eqn:Himg; [|destruct Hin].
  destruct (String.eqb (mode img1) "RGBA") eqn:Hmode; [destruct Hin|].
  destruct Hin as [[= <- <-]|[]].
  split; [reflexivity|]. split; [apply String.eqb_neq, Hmode|].
  exists png. split; [reflexivity|exact Himg].
Qed.

End LoopEvents.

Lemma success_line_not_creating ico_path size : success_line ico_path <> creating_line size.
Proof. unfold success_line, creating_line. cbn. discriminate. Qed.

Lemma success_line_not_converting ico_path svg_path ico_path' :
  success_line ico_path <> converting_line svg_path ico_path'.
Proof. unfold success_line, converting_line. cbn. discriminate. Qed.

Lemma success_line_not_not_found ico_path svg_path :
  success_line ico_path <> not_found_line svg_path.
Proof. unfold success_line, not_found_line. cbn. discriminate. Qed.

(** The success line is in the trace exactly when the stage reached is a
    [save] that succeeded. *)
Lemma success_print_stage D svg_path ico_path sizes w :
  In (EvPrint (success_line ico_path)) (trace_of D svg_path ico_path sizes w) <->
  stage_res D (fs w) (plan D svg_path ico_path sizes w) = Return true.
Proof.
  unfold trace_of. split.
  - intros [Heq|[[=]|Hin]].
    + destruct (success_line_not_converting ico_path svg_path ico_path).
      congruence.
    + destruct (fs w !! svg_path) as [[svg_data|]|]; try (destruct Hin; fail).
      destruct ((heap w ++ [PyImages []]) !! sizes) as [[items|]|];
        try (destruct Hin; fail).
      apply in_app_or in Hin. destruct Hin as [Hin|Hin].
      * apply loop_events_In in Hin. destruct Hin as (size & _ & Hin).
        apply body_events_print in Hin.
        destruct (success_line_not_creating _ _ Hin).
      * destruct (plan D svg_path ico_path sizes w) as [e| |d| |req];
          try (destruct Hin; fail).
        destruct Hin as [[=]|Hin]. cbn. revert Hin.
        destruct (image_save D req (fs w)).2; [reflexivity|intros []].
  - intros Hres. apply stage_res_True in Hres. destruct Hres as (req & Hplan & Hdone).
    pose proof Hplan as Hreach. apply plan_ReachSave in Hreach.
    destruct Hreach as (svg_data & items & img0 & rest & Hfile & Hsizes & _ & _).
    rewrite Hfile, Hsizes, Hplan, Hdone.
    right. right. apply in_or_app. right. right. left. reflexivity.
Qed.

Lemma loop_events_all D svg_data items :
  renders D svg_data items ->
  loop_events D svg_data items = flat_map (body_events D svg_data) items.
Proof.
  intros Hok.
  rewrite <- (app_nil_r items) at 1.
  rewrite (loop_events_prefix D svg_data items [] Hok). apply app_nil_r.
Qed.

Lemma trace_ready D svg_path ico_path sizes w svg_data items :
  fs w !! svg_path = Some (File svg_data) ->
  heap w !! sizes = Some (PyInts items) ->
  trace_of D svg_path ico_path sizes w =
    EvPrint (converting_line svg_path ico_path) :: EvOpenRb svg_path ::
    loop_events D svg_data items ++
    match plan D svg_path ico_path sizes w with
    | ReachSave req =>
        EvSave req ::
        match (image_save D req (fs w)).2 with
        | Done _ => [EvPrint (success_line ico_path)]
        | Failed _ => []
        end
    | _ => []
    end.
Proof.
  intros Hfile Hsizes. unfold trace_of.
  rewrite Hfile, (lookup_app_l_Some _ _ _ _ Hsizes). reflexivity.
Qed.

(** ** More on svg_to_ico *)

(** X1.  A call that returns [True] has printed, in this order, the
    "Converting" line, one "Creating NxN icon..." line per entry of the size
    list, and the "Successfully created" line, and nothing else. *)
Theorem svg_to_ico_progress_lines D svg_path ico_path sizes w svg_data items :
  fs w !! svg_path = Some (File svg_data) ->
  heap w !! sizes = Some (PyInts items) ->
  res (svg_to_ico D svg_path ico_path sizes w) = Return true ->
  printed (events (svg_to_ico D svg_path ico_path sizes w)) =
    converting_line svg_path ico_path :: map creating_line items ++ [success_line ico_path].
Proof.
  intros Hfile Hsizes Hres.
  destruct (svg_to_ico_stage D svg_path ico_path sizes w) as (_ & _ & Hst & _).
  rewrite Hst in Hres. apply stage_res_True in Hres.
  destruct Hres as (req & Hplan & Hdone).
  rewrite svg_to_ico_trace,
    (trace_ready D svg_path ico_path sizes w svg_data items Hfile Hsizes),
    Hplan, Hdone.
  rewrite (plan_ready D svg_path ico_path sizes w svg_data items Hfile Hsizes) in Hplan.
  destruct (render_all D svg_data items) as [imgs [d|]] eqn:Hall; [discriminate|].
  apply render_all_None in Hall.
  assert (Hok : renders D svg_data items)
    by (apply (Forall2_Forall_left _ _ _ _ Hall); eauto).
  rewrite (loop_events_all D svg_data items Hok).
  cbn [printed flat_map app]. fold (printed (flat_map (body_events D svg_data) items ++
    [EvSave req; EvPrint (success_line ico_path)])).
  rewrite printed_app, printed_bodies. reflexivity.
Qed.

Lemma svg_to_ico_progress_lines_witness :
  printed (events (svg_to_ico toy "in.svg" "out.ico" 0%nat world_16_32)) =
    converting_line "in.svg" "out.ico" :: map creating_line [16; 32] ++ [success_line "out.ico"].
Proof.
  apply (svg_to_ico_progress_lines toy "in.svg" "out.ico" 0%nat world_16_32 svg_doc [16; 32]).
  - reflexivity.
  - reflexivity.
  - vm_compute. reflexivity.
Defined.

(** X2.  "Successfully created <ico_path>" is printed exactly by the calls
    that return [True]: never before a failure, and always on success. *)
Theorem svg_to_ico_success_line_iff D svg_path ico_path sizes w :
  In (EvPrint (success_line ico_path)) (events (svg_to_ico D svg_path ico_path sizes w)) <->
  res (svg_to_ico D svg_path ico_path sizes w) = Return true.
Proof.
  destruct (svg_to_ico_stage D svg_path ico_path sizes w) as (_ & _ & -> & _).
  rewrite svg_to_ico_trace. apply success_print_stage.
Qed.

(** X3.  When every rendition succeeds the rasteriser is called once per
    entry of the size list, in list order, each time on the bytes read from
    the input file and with the entry as both width and height. *)
Theorem svg_to_ico_raster_calls D svg_path ico_path sizes w svg_data items :
  fs w !! svg_path = Some (File svg_data) ->
  heap w !! sizes = Some (PyInts items) ->
  renders D svg_data items ->
  List.filter is_raster (events (svg_to_ico D svg_path ico_path sizes w)) =
    map (fun size => EvSvg2png svg_data size size) items.
Proof.
  intros Hfile Hsizes Hok.
  rewrite svg_to_ico_trace,
    (trace_ready D svg_path ico_path sizes w svg_data items Hfile Hsizes),
    (loop_events_all D svg_data items Hok).
  cbn [List.filter is_raster]. rewrite List.filter_app, raster_bodies.
  destruct (plan D svg_path ico_path sizes w) as [e| |d| |req]; cbn;
    try destruct (image_save D req (fs w)).2; cbn; apply app_nil_r.
Qed.

Lemma svg_to_ico_raster_calls_witness :
  List.filter is_raster (events (svg_to_ico toy "in.svg" "out.ico" 0%nat world_16_32)) =
    map (fun size => EvSvg2png svg_doc size size) [16; 32].
Proof.
  apply (svg_to_ico_raster_calls toy "in.svg" "out.ico" 0%nat world_16_32 svg_doc [16; 32]).
  - reflexivity.
  - reflexivity.
  - exact toy_renders_16_32.
Defined.

(** X4.  The loop stops at the first size whose rendition fails: the call
    ends in that dependency's exception, the sizes after it are never
    rasterised or announced, no [save] is made and the file system is as it
    was. *)
Theorem svg_to_ico_stops_at_first_failure
  D svg_path ico_path sizes w svg_data pre size post d :
  fs w !! svg_path = Some (File svg_data) ->
  heap w !! sizes = Some (PyInts (pre ++ size :: post)) ->
  renders D svg_data pre ->
  render D svg_data size = Failed d ->
  res (svg_to_ico D svg_path ico_path sizes w) = Raise (LibError d) /\
  List.filter is_raster (events (svg_to_ico D svg_path ico_path sizes w)) =
    map (fun size => EvSvg2png svg_data size size) (pre ++ [size]) /\
  printed (events (svg_to_ico D svg_path ico_path sizes w)) =
    converting_line svg_path ico_path :: map creating_line (pre ++ [size]) /\
  List.filter is_save (events (svg_to_ico D svg_path ico_path sizes w)) = [] /\
  fs (final (svg_to_ico D svg_path ico_path sizes w)) = fs w.
Proof.
  intros Hfile Hsizes Hpre Hfail.
  destruct (render_all_stop D svg_data pre size post d Hpre Hfail) as [imgs Hall].
  pose proof (plan_ready D svg_path ico_path sizes w svg_data _ Hfile Hsizes) as Hplan.
  rewrite Hall in Hplan.
  rewrite saves_of_stage, svg_to_ico_trace,
    (trace_ready D svg_path ico_path sizes w svg_data _ Hfile Hsizes).
  destruct (svg_to_ico_stage D svg_path ico_path sizes w) as (_ & -> & -> & _).
  rewrite Hplan, app_nil_r, (loop_events_prefix D svg_data pre _ Hpre),
    (loop_events_stop D svg_data size post d Hfail).
  split; [reflexivity|]. split; [|split; [|split; reflexivity]].
  - cbn [List.filter is_raster].
    rewrite List.filter_app, raster_bodies, raster_body, map_app. reflexivity.
  - cbn [printed flat_map app].
    fold (printed (flat_map (body_events D svg_data) pre ++ body_events D svg_data size)).
    rewrite printed_app, printed_bodies, printed_body, map_app. reflexivity.
Qed.

Lemma svg_to_ico_stops_at_first_failure_witness :
  res (svg_to_ico picky "in.svg" "out.ico" 0%nat world_16_512_32) =
    Raise (LibError "ValueError: size too large") /\
  List.filter is_raster (events (svg_to_ico picky "in.svg" "out.ico" 0%nat world_16_512_32)) =
    map (fun size => EvSvg2png svg_doc size size) ([16] ++ [512]) /\
  printed (events (svg_to_ico picky "in.svg" "out.ico" 0%nat world_16_512_32)) =
    converting_line "in.svg" "out.ico" :: map creating_line ([16] ++ [512]) /\
  List.filter is_save (events (svg_to_ico picky "in.svg" "out.ico" 0%nat world_16_512_32)) = [] /\
  fs (final (svg_to_ico picky "in.svg" "out.ico" 0%nat world_16_512_32)) = fs world_16_512_32.
Proof.
  apply (svg_to_ico_stops_at_first_failure picky "in.svg" "out.ico" 0%nat world_16_512_32
           svg_doc [16] 512 [32] "ValueError: size too large").
  - reflexivity.
  - reflexivity.
  - repeat constructor. eexists. reflexivity.
  - reflexivity.
Defined.

(** X5.  [convert] is only ever called on an image that the decoder returned
    with a mode other than RGBA, and always with RGBA as the target: an image
    that is RGBA already is appended as the decoder returned it. *)
Theorem svg_to_ico_converts_only_non_rgba D svg_path ico_path sizes w img to_mode :
  In (EvConvert img to_mode) (events (svg_to_ico D svg_path ico_path sizes w)) ->
  to_mode = "RGBA" /\ mode img <> "RGBA".
Proof.
  rewrite svg_to_ico_trace. unfold trace_of.
  intros [[=]|[[=]|Hin]].
  destruct (fs w !! svg_path) as [[svg_data|]|]; try (destruct Hin; fail).
  destruct ((heap w ++ [PyImages []]) !! sizes) as [[items|]|];
    try (destruct Hin; fail).
  apply in_app_or in Hin. destruct Hin as [Hin|Hin].
  - apply loop_events_In in Hin. destruct Hin as (size & _ & Hin).
    apply body_events_convert in Hin. destruct Hin as (Hto & Hmode & _). auto.
  - destruct (plan D svg_path ico_path sizes w) as [e| |d| |req];
      try (destruct Hin; fail).
    destruct Hin as [[=]|Hin]. revert Hin.
    destruct (image_save D req (fs w)).2; [intros [[=]|[]]|intros []].
Qed.

Lemma svg_to_ico_converts_only_non_rgba_witness :
  "RGBA" = "RGBA" /\
  mode (mkImage "RGB" 16 16 (replicate 16 Byte.x2a)) <> "RGBA".
Proof.
  apply (svg_to_ico_converts_only_non_rgba toy "in.svg" "out.ico" 0%nat world_16_32).
  vm_compute. do 5 right. left. reflexivity.
Defined.

(** X6.  The [save] call is always for the ICO format and the given output
    path, has at least one image (the primary one), and its size directory
    is read off the images themselves: one (width, height) entry per image
    to embed, in the same order, whatever the rasteriser produced. *)
Theorem svg_to_ico_save_request_shape D svg_path ico_path sizes w req :
  In (EvSave req) (events (svg_to_ico D svg_path ico_path sizes w)) ->
  sr_format req = "ICO" /\
  sr_path req = ico_path /\
  sr_sizes req = map (fun img => (width img, height img)) (embedded req) /\
  length (sr_sizes req) = S (length (sr_append req)).
Proof.
  intros Hin. apply save_event_stage, plan_ReachSave in Hin.
  destruct Hin as (svg_data & items & img0 & rest & _ & _ & _ & ->).
  cbn. rewrite length_map. repeat split.
Qed.

Lemma svg_to_ico_save_request_shape_witness :
  sr_format toy_request = "ICO" /\
  sr_path toy_request = "out.ico" /\
  sr_sizes toy_request = map (fun img => (width img, height img)) (embedded toy_request) /\
  length (sr_sizes toy_request) = S (length (sr_append toy_request)).
Proof.
  apply (svg_to_ico_save_request_shape toy "in.svg" "out.ico" 0%nat world_16_32 toy_request).
  vm_compute. do 10 right. left. reflexivity.
Defined.

(** X7.  Called on an input path that does not exist, [svg_to_ico] prints
    the "Converting" line, fails in [open] with [FileNotFoundError], and
    that is all: nothing is rasterised, saved or allocated. *)
Theorem svg_to_ico_missing_input D svg_path ico_path sizes w :
  fs w !! svg_path = None ->
  events (svg_to_ico D svg_path ico_path sizes w) =
    [EvPrint (converting_line svg_path ico_path); EvOpenRb svg_path] /\
  final (svg_to_ico D svg_path ico_path sizes w) = w /\
  res (svg_to_ico D svg_path ico_path sizes w) = Raise (FileNotFoundError svg_path).
Proof.
  intros Hfile. unfold svg_to_ico.
  erewrite bind_Return by reflexivity.
  erewrite bind_Raise by (unfold open_rb; rewrite Hfile; reflexivity).
  repeat split.
Qed.

Lemma svg_to_ico_missing_input_witness :
  events (svg_to_ico toy "in.svg" "out.ico" 0%nat world_bare) =
    [EvPrint (converting_line "in.svg" "out.ico"); EvOpenRb "in.svg"] /\
  final (svg_to_ico toy "in.svg" "out.ico" 0%nat world_bare) = world_bare /\
  res (svg_to_ico toy "in.svg" "out.ico" 0%nat world_bare) = Raise (FileNotFoundError "in.svg").
Proof.
  apply (svg_to_ico_missing_input toy "in.svg" "out.ico" 0%nat world_bare).
  reflexivity.
Defined.

(** ** More on the entry point *)

Lemma main_default_present D script_dir sizes w :
  is_Some (fs w !! default_svg_path D script_dir) ->
  main D script_dir sizes w =
    let s := svg_to_ico D (default_svg_path D script_dir)
               (default_ico_path D script_dir) sizes w in
    mkRun ([EvExists (default_svg_path D script_dir);
            EvExists (default_svg_path D script_dir)] ++ events s)
      (final s)
      match res s with
      | Return _ => Return tt
      | Raise e => Raise e
      end.
Proof.
  intros Hdefault. unfold main, bind, os_path_exists, ret, print, emit, sys_exit, raise.
  cbn -[svg_to_ico]. rewrite (bool_decide_eq_true_2 _ Hdefault). cbn -[svg_to_ico].
  rewrite (bool_decide_eq_true_2 _ Hdefault). cbn -[svg_to_ico].
  destruct (res (svg_to_ico D _ _ sizes w)); cbn -[svg_to_ico];
    rewrite ?app_nil_r; reflexivity.
Qed.

(** X8.  When the default input path exists the alternate path is not looked
    at: the entry point probes the default path (twice, lines 62 and 66) and
    converts it, to the default output path. *)
Theorem main_uses_default_when_present D script_dir sizes w :
  is_Some (fs w !! default_svg_path D script_dir) ->
  List.filter is_probe (events (main D script_dir sizes w)) =
    [EvExists (default_svg_path D script_dir);
     EvExists (default_svg_path D script_dir)] /\
  events (main D script_dir sizes w) =
    [EvExists (default_svg_path D script_dir);
     EvExists (default_svg_path D script_dir)] ++
    events (svg_to_ico D (default_svg_path D script_dir)
              (default_ico_path D script_dir) sizes w) /\
  final (main D script_dir sizes w) =
    final (svg_to_ico D (default_svg_path D script_dir)
             (default_ico_path D script_dir) sizes w).
Proof.
  intros Hdefault. rewrite (main_default_present D script_dir sizes w Hdefault).
  cbn -[svg_to_ico]. rewrite probes_of_stage. repeat split.
Qed.

Lemma main_uses_default_when_present_witness :
  List.filter is_probe (events (main toy "/app" 0%nat world_default)) =
    [EvExists (default_svg_path toy "/app");
     EvExists (default_svg_path toy "/app")] /\
  events (main toy "/app" 0%nat world_default) =
    [EvExists (default_svg_path toy "/app");
     EvExists (default_svg_path toy "/app")] ++
    events (svg_to_ico toy (default_svg_path toy "/app")
              (default_ico_path toy "/app") 0%nat world_default) /\
  final (main toy "/app" 0%nat world_default) =
    final (svg_to_ico toy (default_svg_path toy "/app")
             (default_ico_path toy "/app") 0%nat world_default).
Proof.
  apply (main_uses_default_when_present toy "/app" 0%nat world_default).
  eexists. reflexivity.
Defined.

Lemma stage_res_Return D files st b : stage_res D files st = Return b -> b = true.
Proof.
  destruct st as [e| |d| |req]; cbn; try discriminate.
  destruct (image_save D req files).2; [congruence|discriminate].
Qed.

(** The exit status of a run that ends as [svg_to_ico] ended. *)
Lemma exit_status_stage D svg_path ico_path sizes w :
  exit_status
    match stage_res D (fs w) (plan D svg_path ico_path sizes w) with
    | Return _ => Return tt
    | Raise e => Raise e
    end = 0 <->
  stage_res D (fs w) (plan D svg_path ico_path sizes w) = Return true.
Proof.
  destruct (stage_res D (fs w) (plan D svg_path ico_path sizes w)) as [b|e] eqn:Hst.
  - apply stage_res_Return in Hst. subst b. split; reflexivity.
  - split; [|discriminate]. intros Hexit. exfalso.
    destruct e; cbn in Hexit; try discriminate.
    subst code. exact (plan_no_exit _ _ _ _ _ _ Hst).
Qed.

(** X9.  Whichever input path the entry point ends up converting, the
    default one or the alternate, every [save] it makes goes to the default
    output path, [EnvironmentBuilderApp/Resources/TestTree.ico] under the
    script's directory. *)
Theorem main_output_path_fixed D script_dir sizes w req :
  In (EvSave req) (events (main D script_dir sizes w)) ->
  sr_path req = default_ico_path D script_dir.
Proof.
  assert (Hpath : forall svg_path,
            In (EvSave req)
               (events (svg_to_ico D svg_path (default_ico_path D script_dir) sizes w)) ->
            sr_path req = default_ico_path D script_dir).
  { intros svg_path Hin. apply save_event_stage, plan_ReachSave in Hin.
    destruct Hin as (svg_data & items & img0 & rest & _ & _ & _ & ->). reflexivity. }
  destruct (fs w !! default_svg_path D script_dir) as [n|] eqn:Hdefault.
  - rewrite (main_default_present D script_dir sizes w) by (rewrite Hdefault; eauto).
    cbn -[svg_to_ico]. intros [[=]|[[=]|Hin]]. exact (Hpath _ Hin).
  - rewrite (main_default_missing D script_dir sizes w Hdefault).
    destruct (fs w !! alternate_svg_path D script_dir) as [n|].
    + cbn -[svg_to_ico]. intros [[=]|[[=]|Hin]]. exact (Hpath _ Hin).
    + intros [[=]|[[=]|[[=]|[]]]].
Qed.

Lemma main_output_path_fixed_witness :
  sr_path (save_request (default_ico_path toy "/app") (toy_image 16)
             (map toy_image default_sizes)) =
  default_ico_path toy "/app".
Proof.
  apply (main_output_path_fixed toy "/app" 0%nat world_alternate).
  vm_compute. do 28 right. left. reflexivity.
Defined.

(** X10.  The process ends with exit status 0 exactly when the
    "Successfully created" line for the default output path was printed;
    every other run (no input found, or any exception out of [svg_to_ico])
    ends with a non-zero status. *)
Theorem main_exit_status_zero_iff D script_dir sizes w :
  exit_status (res (main D script_dir sizes w)) = 0 <->
  In (EvPrint (success_line (default_ico_path D script_dir)))
     (events (main D script_dir sizes w)).
Proof.
  assert (Hrun : forall svg_path,
    exit_status
      match res (svg_to_ico D svg_path (default_ico_path D script_dir) sizes w) with
      | Return _ => Return tt
      | Raise e => Raise e
      end = 0 <->
    In (EvPrint (success_line (default_ico_path D script_dir)))
       ([EvExists (default_svg_path D script_dir); EvExists svg_path] ++
        events (svg_to_ico D svg_path (default_ico_path D script_dir) sizes w))).
  { intros svg_path.
    destruct (svg_to_ico_stage D svg_path (default_ico_path D script_dir) sizes w)
      as (_ & _ & -> & _).
    rewrite exit_status_stage, <- success_print_stage, svg_to_ico_trace.
    split; [intros Hin; right; right; exact Hin|].
    intros [[=]|[[=]|Hin]]. exact Hin. }
  destruct (fs w !! default_svg_path D script_dir) as [n|] eqn:Hdefault.
  - rewrite (main_default_present D script_dir sizes w) by (rewrite Hdefault; eauto).
    apply Hrun.
  - rewrite (main_default_missing D script_dir sizes w Hdefault).
    destruct (fs w !! alternate_svg_path D script_dir) as [n|].
    + apply Hrun.
    + cbn. split; [discriminate|].
      intros [[=]|[[=]|[Heq|[]]]].
      destruct (success_line_not_not_found (default_ico_path D script_dir)
                  (alternate_svg_path D script_dir)).
      unfold not_found_line. congruence.
Qed.

(** ** The imports *)

Section Imports.
Variable packages : gmap string package.

Lemma import_each_all modules :
  Forall (fun m => packages !! m = Some Usable) modules ->
  import_each packages modules = (map BootImport modules, Booted).
Proof.
  induction 1 as [|m rest Hm _ IH]; cbn; [reflexivity|].
  rewrite Hm, IH. reflexivity.
Qed.

Lemma import_each_missing pre m post :
  Forall (fun m => packages !! m = Some Usable) pre ->
  packages !! m = None ->
  import_each packages (pre ++ m :: post) = (map BootImport (pre ++ [m]), ImportError m).
Proof.
  intros Hpre Hm. induction Hpre as [|m' pre Hm' _ IH]; cbn.
  - rewrite Hm. reflexivity.
  - rewrite Hm', IH. reflexivity.
Qed.

Lemma import_each_unusable pre m post error :
  Forall (fun m => packages !! m = Some Usable) pre ->
  packages !! m = Some (Unusable error) ->
  import_each packages (pre ++ m :: post) =
    (map BootImport (pre ++ [m]), OtherError m error).
Proof.
  intros Hpre Hm. induction Hpre as [|m' pre Hm' _ IH]; cbn.
  - rewrite Hm. reflexivity.
  - rewrite Hm', IH. reflexivity.
Qed.

(** Imports neither print nor run commands. *)
Lemma import_each_quiet modules :
  List.filter is_boot_system (import_each packages modules).1 = [] /\
  List.filter is_boot_print (import_each packages modules).1 = [].
Proof.
  induction modules as [|m rest [IHs IHp]]; cbn; [split; reflexivity|].
  destruct (packages !! m) as [[|error]|]; cbn; try (split; reflexivity).
  destruct (import_each packages rest) as [evs r]. cbn in *. auto.
Qed.

Lemma import_each_ImportError modules m :
  (import_each packages modules).2 = ImportError m ->
  In m modules /\ packages !! m = None.
Proof.
  induction modules as [|m' rest IH]; cbn; [discriminate|].
  destruct (packages !! m') as [[|error]|] eqn:Hm'; cbn.
  - destruct (import_each packages rest) as [evs r]. cbn in *.
    intros Hr. destruct (IH Hr) as [Hin Hm]. auto.
  - discriminate.
  - intros [= <-]. auto.
Qed.

Lemma loaded_by_missing pre m post :
  Forall (fun m => packages !! m = Some Usable) pre ->
  packages !! m = None ->
  loaded_by packages (pre ++ m :: post) = pre.
Proof.
  intros Hpre Hm. induction Hpre as [|m' pre Hm' _ IH]; cbn.
  - rewrite Hm. reflexivity.
  - rewrite Hm', IH. reflexivity.
Qed.

Lemma import_again_all loaded modules :
  Forall (fun m => In m loaded \/ packages !! m = Some Usable) modules ->
  import_again loaded packages modules = (map BootImport modules, Booted).
Proof.
  induction 1 as [|m rest Hm _ IH]; cbn; [reflexivity|].
  rewrite IH. destruct (in_dec String.string_dec m loaded) as [|Hnot];
    [reflexivity|].
  destruct Hm as [Hm|Hm]; [contradiction|]. rewrite Hm. reflexivity.
Qed.

Lemma import_again_missing loaded pre m post :
  Forall (fun m => In m loaded \/ packages !! m = Some Usable) pre ->
  ~ In m loaded ->
  packages !! m = None ->
  import_again loaded packages (pre ++ m :: post) =
    (map BootImport (pre ++ [m]), ImportError m).
Proof.
  intros Hpre Hnot Hm. induction Hpre as [|m' pre Hm' _ IH]; cbn.
  - destruct (in_dec String.string_dec m loaded); [contradiction|].
    rewrite Hm. reflexivity.
  - rewrite IH. destruct (in_dec String.string_dec m' loaded) as [|Hnot'];
      [reflexivity|].
    destruct Hm' as [Hm'|Hm']; [contradiction|]. rewrite Hm'. reflexivity.
Qed.

Lemma import_again_quiet loaded modules :
  List.filter is_boot_system (import_again loaded packages modules).1 = [] /\
  List.filter is_boot_print (import_again loaded packages modules).1 = [].
Proof.
  induction modules as [|m rest [IHs IHp]]; cbn; [split; reflexivity|].
  destruct (import_again loaded packages rest) as [evs r]. cbn in IHs, IHp.
  destruct (in_dec String.string_dec m loaded); cbn; [auto|].
  destruct (packages !! m) as [[|error]|]; cbn; auto.
Qed.

End Imports.

(** X11.  When the three modules can be imported, the prelude does exactly
    the three imports: it prints nothing, runs no command and leaves the
    installed packages alone. *)
Theorem prelude_ready os_system packages :
  Forall (fun m => packages !! m = Some Usable) imported_modules ->
  prelude os_system packages = (map BootImport imported_modules, packages, Booted).
Proof.
  intros Hall. unfold prelude.
  rewrite (import_each_all packages imported_modules Hall). reflexivity.
Qed.

Lemma prelude_ready_witness :
  prelude pip_works site_ready = (map BootImport imported_modules, site_ready, Booted).
Proof.
  apply (prelude_ready pip_works site_ready).
  repeat constructor.
Defined.

(** X12.  The prelude runs a shell command at most once, and only
    [pip install cairosvg pillow], announced by the "Installing required
    packages..." line, after an import found a module missing; in every
    other run it prints nothing, runs nothing and leaves the packages as
    they were. *)
Theorem prelude_installs_at_most_once os_system packages :
  (List.filter is_boot_system (prelude os_system packages).1.1 = [] /\
   List.filter is_boot_print (prelude os_system packages).1.1 = [] /\
   (prelude os_system packages).1.2 = packages /\
   forall m, (prelude os_system packages).2 <> ImportError m) \/
  (List.filter is_boot_system (prelude os_system packages).1.1 = [BootSystem pip_command] /\
   List.filter is_boot_print (prelude os_system packages).1.1 =
     [BootPrint "Installing required packages..."] /\
   (prelude os_system packages).1.2 = os_system pip_command packages /\
   exists m, In m imported_modules /\ packages !! m = None).
Proof.
  unfold prelude.
  destruct (import_each_quiet packages imported_modules) as [Hs1 Hp1].
  destruct (import_each packages imported_modules) as [evs r] eqn:Hfirst.
  cbn [fst snd] in Hs1, Hp1.
  destruct r as [|m|m error].
  - left. cbn. repeat split; try assumption. discriminate.
  - right.
    destruct (import_again_quiet (os_system pip_command packages)
                (loaded_by packages imported_modules) imported_modules)
      as [Hs2 Hp2].
    destruct (import_again (loaded_by packages imported_modules)
                (os_system pip_command packages) imported_modules)
      as [evs' r'].
    cbn [fst snd] in *.
    rewrite !List.filter_app, Hs1, Hp1. cbn. rewrite Hs2, Hp2.
    repeat split. exists m.
    apply (import_each_ImportError packages imported_modules m).
    rewrite Hfirst. reflexivity.
  - left. cbn. repeat split; try assumption. discriminate.
Qed.

(** X13.  An import that raises something other than [ImportError] (the
    module is installed but cannot be loaded) is not handled: the exception
    leaves the prelude at once, with no message and no install attempt. *)
Theorem prelude_unusable_not_handled os_system packages pre m post error :
  imported_modules = pre ++ m :: post ->
  Forall (fun m => packages !! m = Some Usable) pre ->
  packages !! m = Some (Unusable error) ->
  prelude os_system packages = (map BootImport (pre ++ [m]), packages, OtherError m error).
Proof.
  intros Hsplit Hpre Hm. unfold prelude.
  rewrite Hsplit, (import_each_unusable packages pre m post error Hpre Hm).
  reflexivity.
Qed.

Lemma prelude_unusable_not_handled_witness :
  prelude pip_works site_no_cairo =
    (map BootImport (["PIL.Image"] ++ ["cairosvg"]), site_no_cairo,
     OtherError "cairosvg" "OSError: no library called cairo was found").
Proof.
  apply (prelude_unusable_not_handled pip_works site_no_cairo
           ["PIL.Image"] "cairosvg" ["io"]).
  - reflexivity.
  - repeat constructor.
  - reflexivity.
Defined.

(** X14.  After the install attempt the imports are tried once more and not
    again.  A module the first attempt had loaded is answered from
    [sys.modules] whatever the command did to it; when a module that was not
    loaded is still missing, the prelude ends in the [ImportError] of the
    first such module, having run [pip] exactly once. *)
Theorem prelude_gives_up_after_install os_system packages pre m post pre' m' post' :
  imported_modules = pre ++ m :: post ->
  Forall (fun m => packages !! m = Some Usable) pre ->
  packages !! m = None ->
  imported_modules = pre' ++ m' :: post' ->
  Forall (fun x => In x pre \/ os_system pip_command packages !! x = Some Usable) pre' ->
  ~ In m' pre ->
  os_system pip_command packages !! m' = None ->
  prelude os_system packages =
    (map BootImport (pre ++ [m]) ++
     [BootPrint "Installing required packages..."; BootSystem pip_command] ++
     map BootImport (pre' ++ [m']),
     os_system pip_command packages,
     ImportError m').
Proof.
  intros Hsplit Hpre Hm Hsplit' Hpre' Hnot Hm'.
  assert (Hfirst : import_each packages imported_modules =
                     (map BootImport (pre ++ [m]), ImportError m))
    by (rewrite Hsplit; apply import_each_missing; assumption).
  assert (Hloaded : loaded_by packages imported_modules = pre)
    by (rewrite Hsplit; apply loaded_by_missing; assumption).
  assert (Hretry : import_again pre (os_system pip_command packages) imported_modules =
                     (map BootImport (pre' ++ [m']), ImportError m'))
    by (rewrite Hsplit'; apply import_again_missing; assumption).
  unfold prelude. rewrite Hfirst, Hloaded, Hretry. reflexivity.
Qed.

(** Pillow loads, cairosvg is missing, and [pip] fails: the retry takes
    Pillow from [sys.modules] and stops at cairosvg. *)
Lemma prelude_gives_up_after_install_witness :
  prelude pip_fails site_no_cairosvg =
    (map BootImport (["PIL.Image"] ++ ["cairosvg"]) ++
     [BootPrint "Installing required packages..."; BootSystem pip_command] ++
     map BootImport (["PIL.Image"] ++ ["cairosvg"]),
     pip_fails pip_command site_no_cairosvg,
     ImportError "cairosvg").
Proof.
  apply (prelude_gives_up_after_install pip_fails site_no_cairosvg
           ["PIL.Image"] "cairosvg" ["io"] ["PIL.Image"] "cairosvg" ["io"]).
  - reflexivity.
  - repeat constructor.
  - reflexivity.
  - reflexivity.
  - constructor; [left; left; reflexivity|constructor].
  - intros [[=]|[]].
  - reflexivity.
Defined.

(** A command that installs cairosvg and removes Pillow does no harm to this
    run: Pillow was loaded before the command ran. *)
Lemma prelude_serves_loaded_modules :
  (prelude pip_swaps site_no_cairosvg).2 = Booted /\
  (prelude pip_swaps site_no_cairosvg).1.2 !! "PIL.Image" = None.
Proof. split; vm_compute; reflexivity. Qed.

(** X15.  When a module is missing at first and all three can be imported
    once [pip] has run, the prelude succeeds: the failed first attempt, the
    message, the one [pip] command, then the three imports. *)
Theorem prelude_recovers_after_install os_system packages pre m post :
  imported_modules = pre ++ m :: post ->
  Forall (fun m => packages !! m = Some Usable) pre ->
  packages !! m = None ->
  Forall (fun m => os_system pip_command packages !! m = Some Usable) imported_modules ->
  prelude os_system packages =
    (map BootImport (pre ++ [m]) ++
     [BootPrint "Installing required packages..."; BootSystem pip_command] ++
     map BootImport imported_modules,
     os_system pip_command packages,
     Booted).
Proof.
  intros Hsplit Hpre Hm Hafter. unfold prelude.
  rewrite Hsplit at 1.
  rewrite (import_each_missing packages pre m post Hpre Hm).
  rewrite (import_again_all _ _ imported_modules); [reflexivity|].
  eapply Forall_impl; [exact Hafter|]. cbn. auto.
Qed.

Lemma prelude_recovers_after_install_witness :
  prelude pip_works site_fresh =
    (map BootImport ([] ++ ["PIL.Image"]) ++
     [BootPrint "Installing required packages..."; BootSystem pip_command] ++
     map BootImport imported_modules,
     pip_works pip_command site_fresh,
     Booted).
Proof.
  apply (prelude_recovers_after_install pip_works site_fresh
           [] "PIL.Image" ["cairosvg"; "io"]).
  - reflexivity.
  - constructor.
  - reflexivity.
  - repeat constructor.
Defined.
